(** * parse_xcp_stats.py: a shallow embedding in Rocq

    The script is Python 2 (its output file is opened in mode 'wb' and
    written with str values), so strings are byte strings: Rocq [string]
    over [ascii], whitespace is the C-locale set of str.strip/str.split,
    and float()/int() follow CPython 2.7's literal grammars. Exceptions
    are values of [exn]; a computation that may raise is a [res]. *)

From Stdlib Require Import ZArith String Ascii List Bool Lia.
From Stdlib Require Import Sorting.Permutation Sorting.Sorted.
From Stdlib Require Import Numbers.DecimalString.
From Stdlib Require Numbers.DecimalPos.
Import ListNotations.

Open Scope string_scope.
Open Scope Z_scope.

(** ** Exceptions and the error monad *)

Inductive exn :=
| ValueError | IndexError | KeyError | AssertionError
| OverflowError | StopIteration | IOError.

Inductive res (A : Type) : Type :=
| Ok (a : A)
| Err (e : exn).
Arguments Ok {A} a.
Arguments Err {A} e.

Definition bind {A B} (m : res A) (k : A -> res B) : res B :=
  match m with Ok a => k a | Err e => Err e end.

Notation "x <- m ;; k" := (bind m (fun x => k))
  (at level 61, m at next level, right associativity).

(** ** Python str operations *)

Module PyStr.

(** C-locale isspace: \t \n \v \f \r and space. *)
Definition is_space (c : ascii) : bool :=
  let n := nat_of_ascii c in ((9 <=? n)%nat && (n <=? 13)%nat) || (n =? 32)%nat.

Fixpoint mem_char (c : ascii) (cs : string) : bool :=
  match cs with
  | EmptyString => false
  | String d cs' => Ascii.eqb c d || mem_char c cs'
  end.

Fixpoint srev (s : string) : string :=
  match s with
  | EmptyString => EmptyString
  | String c s' => srev s' ++ String c EmptyString
  end.

Fixpoint lstrip_by (p : ascii -> bool) (s : string) : string :=
  match s with
  | EmptyString => EmptyString
  | String c s' => if p c then lstrip_by p s' else s
  end.

Definition rstrip_by (p : ascii -> bool) (s : string) : string :=
  srev (lstrip_by p (srev s)).

(** s.strip(), s.lstrip(chars), s.rstrip(chars) *)
Definition strip (s : string) : string :=
  rstrip_by is_space (lstrip_by is_space s).
Definition lstrip_set (chars s : string) : string :=
  lstrip_by (fun c => mem_char c chars) s.
Definition rstrip_set (chars s : string) : string :=
  rstrip_by (fun c => mem_char c chars) s.

(** s.replace(c, '') for a one-character c *)
Fixpoint remove_char (c : ascii) (s : string) : string :=
  match s with
  | EmptyString => EmptyString
  | String d s' => if Ascii.eqb c d then remove_char c s' else String d (remove_char c s')
  end.

Definition startswith (s p : string) : bool := String.prefix p s.
Definition endswith (s suf : string) : bool := String.prefix (srev suf) (srev s).

(** s.find(sub): offset of the first occurrence *)
Fixpoint find (sub s : string) : option nat :=
  if String.prefix sub s then Some 0%nat
  else match s with
       | EmptyString => None
       | String _ s' => option_map S (find sub s')
       end.

(** sub in s *)
Definition contains (s sub : string) : bool :=
  match find sub s with Some _ => true | None => false end.

(** s.index(sub) *)
Definition index (s sub : string) : res nat :=
  match find sub s with Some i => Ok i | None => Err ValueError end.

(** s.split(): the maximal runs of non-whitespace.  [split_ws_go s] is the
    run at the head of [s] and the tokens after it. *)
Fixpoint split_ws_go (s : string) : string * list string :=
  match s with
  | EmptyString => (EmptyString, [])
  | String c s' =>
      let (w, ts) := split_ws_go s' in
      if is_space c then (EmptyString, match w with EmptyString => ts | _ => w :: ts end)
      else (String c w, ts)
  end.

Definition split_ws (s : string) : list string :=
  let (w, ts) := split_ws_go s in
  match w with EmptyString => ts | _ => w :: ts end.

(** s.split(c) for a one-character separator: never empty *)
Fixpoint split_on (c : ascii) (s : string) : list string :=
  match s with
  | EmptyString => [EmptyString]
  | String d s' =>
      match split_on c s' with
      | [] => []
      | f :: fs => if Ascii.eqb d c then EmptyString :: f :: fs else String d f :: fs
      end
  end.

(** s.partition(c) for a one-character separator *)
Fixpoint partition (c : ascii) (s : string) : string * string * string :=
  match s with
  | EmptyString => (EmptyString, EmptyString, EmptyString)
  | String d s' =>
      if Ascii.eqb d c then (EmptyString, String c EmptyString, s')
      else let '(a, m, b) := partition c s' in (String d a, m, b)
  end.

(** Python slice bounds: a negative bound counts from the end, then both
    are clamped to [0, len]. *)
Definition slice_bound (len i : Z) : Z :=
  if i <? 0 then Z.max 0 (i + len) else Z.min i len.

(** s[i:j] *)
Definition slice (s : string) (i j : Z) : string :=
  let len := Z.of_nat (String.length s) in
  let a := slice_bound len i in
  let b := slice_bound len j in
  if a <? b then substring (Z.to_nat a) (Z.to_nat (b - a)) s else EmptyString.

End PyStr.

(** Python list indexing l[i], negative indices counting from the end *)
Definition py_nth {A} (l : list A) (i : Z) : res A :=
  let len := Z.of_nat (length l) in
  let j := if i <? 0 then i + len else i in
  if (0 <=? j) && (j <? len) then
    match nth_error l (Z.to_nat j) with Some x => Ok x | None => Err IndexError end
  else Err IndexError.

(** l.index(x) for strings *)
Fixpoint list_index (l : list string) (x : string) : res Z :=
  match l with
  | [] => Err ValueError
  | y :: l' => if String.eqb x y then Ok 0 else
                 match list_index l' x with Ok i => Ok (1 + i) | Err e => Err e end
  end.

(** ** Python 2 int() and float() on a str *)

Module PyNum.
Import PyStr.

Definition digit_val (c : ascii) : option Z :=
  let n := nat_of_ascii c in
  if (48 <=? n)%nat && (n <=? 57)%nat then Some (Z.of_nat n - 48) else None.

Fixpoint digits_acc (s : string) (acc : Z) : option Z :=
  match s with
  | EmptyString => Some acc
  | String c s' =>
      match digit_val c with
      | Some d => digits_acc s' (acc * 10 + d)
      | None => None
      end
  end.

(** a non-empty run of decimal digits *)
Definition parse_digits (s : string) : option Z :=
  match s with EmptyString => None | _ => digits_acc s 0 end.

(** the leading run of decimal digits of s and the rest *)
Fixpoint span_digits (s : string) : string * string :=
  match s with
  | EmptyString => (EmptyString, EmptyString)
  | String c s' =>
      match digit_val c with
      | Some _ => let (d, r) := span_digits s' in (String c d, r)
      | None => (EmptyString, s)
      end
  end.

(** PyInt_FromString(s, NULL, 10): leading whitespace, an optional sign,
    whitespace again (PyOS_strtoul skips it), digits, trailing whitespace. *)
Definition py_int (s : string) : res Z :=
  let t := strip s in
  let '(neg, u) :=
    match t with
    | String "-" u => (true, u)
    | String "+" u => (false, u)
    | _ => (false, t)
    end in
  match parse_digits (lstrip_by is_space u) with
  | Some n => Ok (if neg then - n else n)
  | None => Err ValueError
  end.

(** Binary64 values: [Fin neg m e] is (-1)^neg * m * 2^e with 0 <= m. *)
Inductive pyfloat :=
| Fin (neg : bool) (m e : Z)
| Inf (neg : bool)
| NaN.

(** Round a/b (a, b > 0) to nearest, ties to even, in binary64: the
    significand q and exponent e, or None on overflow. *)
Definition round_pos (a b : Z) : option (Z * Z) :=
  let k0 := Z.log2 a - Z.log2 b in
  let ge := if 0 <=? k0 then b * 2 ^ k0 <=? a else b <=? a * 2 ^ (- k0) in
  let k := if ge then k0 else k0 - 1 in
  let e := Z.max (k - 52) (-1074) in
  let '(num, den) := if 0 <=? e then (a, b * 2 ^ e) else (a * 2 ^ (- e), b) in
  let q := num / den in
  let r := num mod den in
  let q' := if (den <? 2 * r) || ((2 * r =? den) && Z.odd q) then q + 1 else q in
  if (0 <=? e) && (2 ^ 1024 <=? q' * 2 ^ e) then None else Some (q', e).

Definition round_rat (neg : bool) (a b : Z) : pyfloat :=
  if a =? 0 then Fin neg 0 0
  else match round_pos a b with
       | Some (q, e) => Fin neg q e
       | None => Inf neg
       end.

(** _Py_parse_inf_or_nan, after the sign: "inf", "infinity", "nan", any case *)
Definition lower (c : ascii) : ascii :=
  let n := nat_of_ascii c in
  if (65 <=? n)%nat && (n <=? 90)%nat then ascii_of_nat (n + 32) else c.
Fixpoint lower_str (s : string) : string :=
  match s with EmptyString => EmptyString | String c s' => String (lower c) (lower_str s') end.

(** _Py_dg_strtod on the whole of u (sign already taken):
    digits [ '.' digits ] [ (e|E) [sign] digits ], some mantissa digit. *)
Definition parse_decimal (neg : bool) (u : string) : res pyfloat :=
  let (d1, r1) := span_digits u in
  let '(d2, r2) := match r1 with
                   | String "." r => span_digits r
                   | _ => (EmptyString, r1)
                   end in
  match parse_digits (d1 ++ d2) with
  | None => Err ValueError
  | Some m =>
      let ex :=
        match r2 with
        | EmptyString => Some 0
        | String c r =>
            if (Ascii.eqb c "e") || (Ascii.eqb c "E") then
              match r with
              | String "-" r' => option_map Z.opp (parse_digits r')
              | String "+" r' => parse_digits r'
              | _ => parse_digits r
              end
            else None
        end in
      match ex with
      | None => Err ValueError
      | Some x =>
          let p := x - Z.of_nat (String.length d2) in
          Ok (if 0 <=? p then round_rat neg (m * 10 ^ p) 1
              else round_rat neg m (10 ^ (- p)))
      end
  end.

(** PyFloat_FromString: strip whitespace, then _PyOS_ascii_strtod *)
Definition py_float (s : string) : res pyfloat :=
  let t := strip s in
  let '(neg, u) :=
    match t with
    | String "-" u => (true, u)
    | String "+" u => (false, u)
    | _ => (false, t)
    end in
  let lu := lower_str u in
  if String.eqb lu "inf" || String.eqb lu "infinity" then Ok (Inf neg)
  else if String.eqb lu "nan" then Ok NaN
  else parse_decimal neg u.

(** x * n for a float x and an int n > 0 exactly representable (n < 2^53) *)
Definition fmul_int (x : pyfloat) (n : Z) : pyfloat :=
  match x with
  | Fin neg m e =>
      if 0 <=? e then round_rat neg (m * n * 2 ^ e) 1 else round_rat neg (m * n) (2 ^ (- e))
  | Inf neg => Inf neg
  | NaN => NaN
  end.

(** int(x) for a float x: truncation toward zero *)
Definition int_of_float (x : pyfloat) : res Z :=
  match x with
  | Fin neg m e =>
      let t := if 0 <=? e then m * 2 ^ e else m / 2 ^ (- e) in
      Ok (if neg then - t else t)
  | Inf _ => Err OverflowError
  | NaN => Err ValueError
  end.

End PyNum.

(** ** convert (lines 71-89) *)

Import PyStr PyNum.

Definition sizes : list (string * Z) :=
  [("KiB", 2 ^ 10); ("MiB", 2 ^ 20); ("GiB", 2 ^ 30); ("TiB", 2 ^ 40)].
Definition counts : list (string * Z) :=
  [("K", 10 ^ 3); ("M", 10 ^ 6); ("B", 10 ^ 9); ("T", 10 ^ 12)].

(** [for s, n in d.items(): if v.endswith(s): ...]; the suffixes of each
    table are pairwise exclusive, so the dict's iteration order is immaterial. *)
Fixpoint find_suffix (tbl : list (string * Z)) (v : string) : option (string * Z) :=
  match tbl with
  | [] => None
  | (s, n) :: tbl' => if endswith v s then Some (s, n) else find_suffix tbl' v
  end.

Definition convert (val : string) : res (string * Z) :=
  let orig := strip val in
  let v := strip (remove_char "," val) in
  if String.eqb (strip v) "" then Ok (orig, 0) else
  match find_suffix sizes v with
  | Some (s, n) => x <- py_float (rstrip_set s v) ;; r <- int_of_float (fmul_int x n) ;; Ok (orig, r)
  | None =>
      match find_suffix counts v with
      | Some (s, n) => x <- py_float (rstrip_set s v) ;; r <- int_of_float (fmul_int x n) ;; Ok (orig, r)
      | None => r <- py_int v ;; Ok (orig, r)
      end
  end.

(** ** getfields (lines 91-105) *)

Definition MaxField : Z := 9.

Definition modified_names : list string :=
  [">1 year"; ">1 month"; "1-31 days"; "1-24 hrs"; "<1 hour"; "<15 mins"; "future"; "invalid"].

(** the loop over [names]: the value under each name is right justified in
    the MaxField characters ending where the name ends *)
Fixpoint getfields_values (line1 line2 : string) (names : list string) : res (list Z) :=
  match names with
  | [] => Ok []
  | name :: names' =>
      j <- index line1 name ;;
      let i := Z.of_nat j + Z.of_nat (String.length name) - MaxField in
      sn <- convert (slice line2 i (i + MaxField)) ;;
      rest <- getfields_values line1 line2 names' ;;
      Ok (snd sn :: rest)
  end.

Definition getfields (line1 line2 : string) : res (list string * list Z) :=
  let names := if contains line1 ">1 year" then modified_names else split_ws line1 in
  values <- getfields_values line1 line2 names ;;
  Ok (names, values).

(** ** The statistics record (lines 107-120) *)

(** the Python values that reach a table cell *)
Inductive pyval :=
| PInt (z : Z)
| PStr (s : string)
| PNone.

Record Histo := mkHisto {
  h_title : string;
  h_labels : list string;
  h_values : list pyval
}.

(** A dict keyed by str, as the list of its items; d[k] = v replaces the
    value of an existing key in place and appends a new key. *)
Fixpoint dict_set {V} (k : string) (v : V) (d : list (string * V)) : list (string * V) :=
  match d with
  | [] => [(k, v)]
  | (k', v') :: d' => if String.eqb k k' then (k, v) :: d' else (k', v') :: dict_set k v d'
  end.

Fixpoint dict_get {V} (k : string) (d : list (string * V)) : option V :=
  match d with
  | [] => None
  | (k', v') :: d' => if String.eqb k k' then Some v' else dict_get k d'
  end.

(** d[k] *)
Definition dict_item {V} (k : string) (d : list (string * V)) : res V :=
  match dict_get k d with Some v => Ok v | None => Err KeyError end.

Definition dict_has {V} (k : string) (d : list (string * V)) : bool :=
  match dict_get k d with Some _ => true | None => false end.

Record ScanStats := mkStats {
  fileName : string;
  hists : list (string * Histo);
  single : list (string * Z);
  source : option string;
  nError : Z
}.

Definition new_stats (name : string) : ScanStats := mkStats name [] [] None 0.

Definition set_source (src : string) (st : ScanStats) : ScanStats :=
  mkStats (fileName st) (hists st) (single st) (Some src) (nError st).
Definition set_nError (n : Z) (st : ScanStats) : ScanStats :=
  mkStats (fileName st) (hists st) (single st) (source st) n.
Definition set_hist (t : string) (h : Histo) (st : ScanStats) : ScanStats :=
  mkStats (fileName st) (dict_set t h (hists st)) (single st) (source st) (nError st).
Definition set_single (t : string) (n : Z) (st : ScanStats) : ScanStats :=
  mkStats (fileName st) (hists st) (dict_set t n (single st)) (source st) (nError st).

Definition Histograms : list string :=
  ["Maximum Values"; "Average Values"; "Space used"; "Top File Extensions";
   "Number of files"; "Directory entries"; "Depth"; "Modified"; "Created"; "Changed"].

(** the keys of SingleValueOutputs, in order *)
Definition SingleValueOutputs : list string :=
  ["Total space used"; "Regular files"; "Directories"; "Symbolic links";
   "Junctions"; "Hard links"; "Special files"].

Definition in_list (x : string) (l : list string) : bool := existsb (String.eqb x) l.

(** next(x for x in l if p(x)) *)
Definition next_such {A} (p : A -> bool) (l : list A) : res A :=
  match filter p l with x :: _ => Ok x | [] => Err StopIteration end.

(** ** ScanStats.fromWindows (lines 129-154) *)

(** line.strip().lstrip("== ").rstrip(" ==") *)
Definition windows_title (line : string) : string :=
  rstrip_set " ==" (lstrip_set "== " (strip line)).

(** one iteration of the loop body, for line number [lineNum] *)
Definition windows_line (lines : list string) (lineNum : nat) (line : string)
    (self : ScanStats) : res ScanStats :=
  if startswith line "xcp scan" then
    src <- next_such (fun f => startswith f "\") (split_ws line) ;;
    Ok (set_source src self)
  else
    self1 <- (if contains line " errors, " then
                errfield <- next_such (fun f => contains f "errors") (split_on "," line) ;;
                match split_ws errfield with
                | [nErr; _] => n <- py_int nErr ;; Ok (set_nError (Z.max (nError self) n) self)
                | _ => Err ValueError
                end
              else Ok self) ;;
    let title := windows_title line in
    if in_list title Histograms then
      line1 <- py_nth lines (Z.of_nat lineNum + 1) ;;
      line2 <- py_nth lines (Z.of_nat lineNum + 2) ;;
      lv <- getfields line1 line2 ;;
      Ok (set_hist title (mkHisto title (fst lv) (map PInt (snd lv))) self1)
    else
      let '(title', _, s) := partition ":" line in
      if in_list title' SingleValueOutputs then
        sn <- convert s ;; Ok (set_single title' (snd sn) self1)
      else Ok self1.

(** for lineNum, line in enumerate(lines), from line number [n] on *)
Fixpoint windows_loop (lines : list string) (n : nat) (rest : list string)
    (self : ScanStats) : res ScanStats :=
  match rest with
  | [] => Ok self
  | line :: rest' => self' <- windows_line lines n line self ;; windows_loop lines (S n) rest' self'
  end.

Definition fromWindows (name : string) (lines : list string) : res ScanStats :=
  windows_loop lines 0 lines (new_stats name).

(** ** ScanStats.fromCSV (lines 156-207) *)

Definition dq : string := String (ascii_of_nat 34) EmptyString.

(** one iteration of the loop body; the state is the record and skip1
    (a histogram title, never empty, hence truthy when set) *)
Definition csv_line (lines : list string) (lineNum : nat) (line : string)
    (st : ScanStats * option string) : res (ScanStats * option string) :=
  let (self, skip1) := st in
  match skip1 with
  | Some t => if startswith line t then Ok (self, None) else Err AssertionError
  | None =>
    if startswith line "scan " then
      src <- py_nth (split_ws line) 1 ;; Ok (set_source src self, None)
    else if startswith line ("summary," ++ dq) && contains line "errors," then
      let fields := split_ws (slice line 9 (-1)) in
      i <- list_index fields "errors," ;;
      tok <- py_nth fields (i - 1) ;;
      n <- py_int tok ;;
      Ok (set_nError n self, None)
    else
      let fields := split_on "," line in
      let title := hd EmptyString fields in
      if in_list title Histograms then
        next <- py_nth lines (Z.of_nat lineNum + 1) ;;
        let labels := tl fields in
        let values := map PStr (tl (split_on "," next)) in
        Ok (set_hist title (mkHisto title labels values) self, Some title)
      else if negb (in_list title SingleValueOutputs) then Ok (self, None)
      else
        f1 <- py_nth fields 1 ;;
        n <- py_int f1 ;;
        Ok (set_single title n self, None)
  end.

Fixpoint csv_loop (lines : list string) (n : nat) (rest : list string)
    (st : ScanStats * option string) : res (ScanStats * option string) :=
  match rest with
  | [] => Ok st
  | line :: rest' => st' <- csv_line lines n line st ;; csv_loop lines (S n) rest' st'
  end.

Definition fromCSV (name : string) (lines : list string) : res ScanStats :=
  st <- csv_loop lines 0 lines (new_stats name, None) ;; Ok (fst st).

(** ** ScanStats.fromFile (lines 122-127) *)

Definition fromFile (name : string) (lines : list string) : res ScanStats :=
  if endswith name "csv" then fromCSV name lines else fromWindows name lines.

(** ** The report (lines 209-299) *)

Definition TopExt : string := "Top File Extensions".

(** The header loop over Histograms (lines 231-249).  file2stats[fileNames[0]]
    is evaluated in every iteration that gets past the Top File Extensions
    test, so an empty fileNames raises IndexError there. *)
Fixpoint header_loop (fileNames : list string) (file2stats : list (string * ScanStats))
    (titles : list string) (header0 header : list string) : res (list string * list string) :=
  match titles with
  | [] => Ok (header0, header)
  | title :: titles' =>
      if String.eqb title TopExt then header_loop fileNames file2stats titles' header0 header
      else
        name0 <- py_nth fileNames 0 ;;
        stats0 <- dict_item name0 file2stats ;;
        match dict_get title (hists stats0) with
        | None => header_loop fileNames file2stats titles' header0 header
        | Some h =>
            let labels := h_labels h in
            header_loop fileNames file2stats titles'
              (header0 ++ [title] ++ repeat EmptyString (length labels - 1)) (header ++ labels)
        end
  end.

Definition build_header (fileNames : list string) (file2stats : list (string * ScanStats))
    : res (list string * list string) :=
  header_loop fileNames file2stats Histograms
    (["" ; "" ; ""] ++ map (fun _ => EmptyString) SingleValueOutputs)
    (["" ; "Errors" ; ""] ++ SingleValueOutputs).

(** the histogram part of a data row (lines 264-274) *)
Fixpoint row_hists (stats : ScanStats) (titles : list string) : list pyval :=
  match titles with
  | [] => []
  | title :: titles' =>
      if String.eqb title TopExt then row_hists stats titles'
      else match dict_get title (hists stats) with
           | Some h => h_values h ++ row_hists stats titles'
           | None => row_hists stats titles'
           end
  end.

(** one data row (lines 254-274) *)
Definition make_row (name : string) (stats : ScanStats) : list pyval :=
  [PStr name;
   (if nError stats =? 0 then PStr "" else PInt (nError stats));
   match source stats with Some s => PStr s | None => PNone end]
  ++ map (fun t => match dict_get t (single stats) with Some n => PInt n | None => PNone end)
         SingleValueOutputs
  ++ row_hists stats Histograms.

Fixpoint build_rows (fileNames : list string) (file2stats : list (string * ScanStats))
    : res (list (list pyval)) :=
  match fileNames with
  | [] => Ok []
  | name :: names =>
      stats <- dict_item name file2stats ;;
      rest <- build_rows names file2stats ;;
      Ok (make_row name stats :: rest)
  end.

(** Python 2 ordering of the values that reach a cell:
    None < numbers < str, str ordered bytewise *)
Definition py_lt (a b : pyval) : bool :=
  match a, b with
  | PNone, PNone => false
  | PNone, _ => true
  | _, PNone => false
  | PInt x, PInt y => x <? y
  | PInt _, PStr _ => true
  | PStr _, PInt _ => false
  | PStr x, PStr y => match String.compare x y with Lt => true | _ => false end
  end.

(** row[3]: every row has at least ten cells *)
Definition row_key (row : list pyval) : pyval := nth 3 row PNone.

(** l.sort(key=key, reverse=True): a stable sort, descending *)
Fixpoint insert_desc {A} (key : A -> pyval) (x : A) (l : list A) : list A :=
  match l with
  | [] => [x]
  | y :: l' => if py_lt (key y) (key x) then x :: l else y :: insert_desc key x l'
  end.

Definition sort_desc {A} (key : A -> pyval) (l : list A) : list A :=
  fold_left (fun acc x => insert_desc key x acc) l [].

Record table := mkTable {
  header0 : list string;
  header : list string;
  rows : list (list pyval)
}.

Definition build_table (fileNames : list string) (file2stats : list (string * ScanStats))
    : res table :=
  hs <- build_header fileNames file2stats ;;
  rs <- build_rows fileNames file2stats ;;
  Ok (mkTable (fst hs) (snd hs) (sort_desc row_key rs)).

(** fmt and mkline (lines 287-294) *)
Definition Z_to_str (z : Z) : string := NilEmpty.string_of_int (Z.to_int z).

Definition fmt (v : pyval) : string :=
  match v with
  | PInt z => Z_to_str z
  | PStr s => dq ++ s ++ dq
  | PNone => dq ++ "None" ++ dq
  end.

Definition mkline (row : list pyval) : string :=
  String.concat "," (map fmt row) ++ String (ascii_of_nat 10) EmptyString.

(** the lines written to stats.csv *)
Definition serialize (t : table) : list string :=
  mkline (map PStr (header0 t)) :: mkline (map PStr (header t)) :: map mkline (rows t).

Definition aggregate (fileNames : list string) (file2stats : list (string * ScanStats))
    : res (list string) :=
  t <- build_table fileNames file2stats ;; Ok (serialize t).

(** The parse loop (lines 213-221).  The handler re-raises; its message is
    guarded by the module-level lineNum, which stays None: the loops of
    fromWindows and fromCSV bind a local variable of that name.  A file
    system is the readlines() content of each openable path. *)
Fixpoint parse_all (fs : string -> option (list string)) (names : list string)
    (file2stats : list (string * ScanStats)) : res (list (string * ScanStats)) :=
  match names with
  | [] => Ok file2stats
  | name :: names' =>
      match fs name with
      | None => Err IOError
      | Some lines =>
          st <- fromFile name lines ;;
          parse_all fs names' (dict_set name st file2stats)
      end
  end.

Definition main (fs : string -> option (list string)) (fileNames : list string)
    : res (list string) :=
  file2stats <- parse_all fs fileNames [] ;;
  aggregate fileNames file2stats.

(** ** Readings of the spec's words, to compare with the code *)

Module SpecReading.

(** The normalizer with the suffix cut off the end, as §4.1 words it
    ("the numeric prefix"), where the code calls v.rstrip(s). *)
Definition drop_suffix (v s : string) : string :=
  substring 0 (String.length v - String.length s) v.

Definition convert_spec (val : string) : res (string * Z) :=
  let orig := strip val in
  let v := strip (remove_char "," val) in
  if String.eqb (strip v) "" then Ok (orig, 0) else
  match find_suffix sizes v with
  | Some (s, n) => x <- py_float (drop_suffix v s) ;; r <- int_of_float (fmul_int x n) ;; Ok (orig, r)
  | None =>
      match find_suffix counts v with
      | Some (s, n) => x <- py_float (drop_suffix v s) ;; r <- int_of_float (fmul_int x n) ;; Ok (orig, r)
      | None => r <- py_int v ;; Ok (orig, r)
      end
  end.

(** The Windows loop as §4.3 words it: after a histogram title line,
    scanning resumes after the two lines handed to getfields. *)
Fixpoint windows_loop_resume (lines : list string) (n skip : nat) (rest : list string)
    (self : ScanStats) : res ScanStats :=
  match rest with
  | [] => Ok self
  | line :: rest' =>
      match skip with
      | S k => windows_loop_resume lines (S n) k rest' self
      | O =>
          self' <- windows_line lines n line self ;;
          let hist := negb (startswith line "xcp scan") && in_list (windows_title line) Histograms in
          windows_loop_resume lines (S n) (if hist then 2 else 0)%nat rest' self'
      end
  end.

Definition fromWindows_resume (name : string) (lines : list string) : res ScanStats :=
  windows_loop_resume lines 0 0 lines (new_stats name).

End SpecReading.

(** * Properties *)

(** ** The normalizer *)

(** The examples of §8: convert("1.5KiB"), convert("2M"), convert(""),
    convert("1,234"). *)
Example convert_examples :
  convert "1.5KiB" = Ok ("1.5KiB", 1536) /\ convert "2M" = Ok ("2M", 2000000) /\
  convert "" = Ok ("", 0) /\ convert "1,234" = Ok ("1,234", 1234).
Proof. vm_compute. repeat split. Qed.

(** The float product is rounded before truncation: 1.005 * 1000 is
    1004.9999999999999 in binary64. *)
Example convert_float_rounding : convert "1.005K" = Ok ("1.005K", 1004).
Proof. vm_compute. reflexivity. Qed.

(** C1: the normalizer does not cut the suffix off the numeric prefix:
    v.rstrip("M") strips every trailing "M", so convert("2MM") is 2000000,
    while parsing the prefix "2M" left by removing the suffix "M" fails. *)
Theorem convert_rstrip_overstrips :
  convert "2MM" = Ok ("2MM", 2000000) /\ SpecReading.convert_spec "2MM" = Err ValueError.
Proof. vm_compute. split; reflexivity. Qed.

(** ** The fixed-width extractor *)

Definition ext_label_row : string := "  .zip       .pdf      other".
Definition ext_value_row : string := " 19507      16328      22047".

(** C2: on the label row "  .zip       .pdf      other" and value row
    " 19507      16328      22047", getfields yields the labels in order but
    the value 0 for ".zip": its window starts at offset 6 - 9 = -3, which a
    Python slice reads from the end of the row, giving the empty string;
    the window [0, 6) clamped at the row start holds 19507. *)
Theorem getfields_first_window_wraps :
  getfields ext_label_row ext_value_row = Ok ([".zip"; ".pdf"; "other"], [0; 16328; 22047]) /\
  slice ext_value_row (-3) 6 = EmptyString /\
  convert (slice ext_value_row 0 6) = Ok ("19507", 19507).
Proof. vm_compute. repeat split. Qed.

(** ** The CSV parser on the Maximum Values pair *)

Definition maxval_label_line : string := "Maximum Values,Size,Used,Depth".
Definition maxval_value_line : string := "Maximum Values,14579924992,19489326592,19".

(** C3, refuted: the histogram read from the two lines does not carry the
    integers 14579924992, 19489326592, 19. *)
Lemma fromCSV_maxvalues_not_ints :
  ~ exists st, fromCSV "scan.csv" [maxval_label_line; maxval_value_line] = Ok st /\
      dict_get "Maximum Values" (hists st) =
        Some (mkHisto "Maximum Values" ["Size"; "Used"; "Depth"]
                [PInt 14579924992; PInt 19489326592; PInt 19]).
Proof.
  intros [st [Hp Hh]]. vm_compute in Hp. injection Hp as <-.
  vm_compute in Hh. discriminate.
Qed.

(** C7, refuted: the continuation check is a prefix test, so a value row
    whose first field is "Maximum Valuesx" passes it and the file parses. *)
Lemma fromCSV_skip_check_prefix_only :
  match fromCSV "scan.csv" ["Maximum Values,Size"; "Maximum Valuesx,5"] with
  | Ok _ => hd EmptyString (split_on "," "Maximum Valuesx,5") <> "Maximum Values"
  | Err _ => False
  end.
Proof. vm_compute. discriminate. Qed.

(** ** The Windows parser *)

Definition win_lines : list string :=
  ["Space used"; "      Depth"; "        7"; "        8"].

(** C8, refuted: the label row "      Depth" consumed by the "Space used"
    block is evaluated again and read as the title of a Depth histogram,
    which resuming after the two consumed lines would never store. *)
Lemma fromWindows_rereads_label_row :
  match fromWindows "scan.txt" win_lines, SpecReading.fromWindows_resume "scan.txt" win_lines with
  | Ok st, Ok st' => dict_has "Depth" (hists st) = true /\ dict_has "Depth" (hists st') = false
  | _, _ => False
  end.
Proof. vm_compute. split; reflexivity. Qed.

(** ** Loop lemmas *)

Lemma bind_Ok {A} (m : res A) : bind m Ok = m.
Proof. destruct m; reflexivity. Qed.

Lemma py_nth_nat {A} (l : list A) (k : nat) :
  py_nth l (Z.of_nat k) = match nth_error l k with Some x => Ok x | None => Err IndexError end.
Proof.
  unfold py_nth. cbv zeta.
  replace (Z.of_nat k <? 0) with false by (symmetry; apply Z.ltb_ge; lia).
  destruct (nth_error l k) eqn:Hn.
  - assert (k < length l)%nat by (apply nth_error_Some; congruence).
    replace ((0 <=? Z.of_nat k) && (Z.of_nat k <? Z.of_nat (length l))) with true
      by (symmetry; apply andb_true_iff; split; [apply Z.leb_le | apply Z.ltb_lt]; lia).
    rewrite Nat2Z.id, Hn. reflexivity.
  - apply nth_error_None in Hn.
    replace ((0 <=? Z.of_nat k) && (Z.of_nat k <? Z.of_nat (length l))) with false
      by (symmetry; apply andb_false_iff; right; apply Z.ltb_ge; lia).
    reflexivity.
Qed.

Lemma py_nth_after {A} (pre post : list A) (x y : A) :
  py_nth (pre ++ x :: y :: post) (Z.of_nat (length pre) + 1) = Ok y.
Proof.
  replace (Z.of_nat (length pre) + 1) with (Z.of_nat (S (length pre))) by lia.
  rewrite py_nth_nat, nth_error_app2 by lia.
  replace (S (length pre) - length pre)%nat with 1%nat by lia. reflexivity.
Qed.

Lemma py_nth_after2 {A} (pre post : list A) (x y z : A) :
  py_nth (pre ++ x :: y :: z :: post) (Z.of_nat (length pre) + 2) = Ok z.
Proof.
  replace (Z.of_nat (length pre) + 2) with (Z.of_nat (S (S (length pre)))) by lia.
  rewrite py_nth_nat, nth_error_app2 by lia.
  replace (S (S (length pre)) - length pre)%nat with 2%nat by lia. reflexivity.
Qed.

Lemma csv_loop_app lines n l1 l2 st :
  csv_loop lines n (l1 ++ l2) st =
  bind (csv_loop lines n l1 st) (fun st' => csv_loop lines (n + length l1) l2 st').
Proof.
  revert n st. induction l1 as [|x l1 IH]; intros n st; simpl.
  - rewrite Nat.add_0_r. reflexivity.
  - replace (n + S (length l1))%nat with (S n + length l1)%nat by lia.
    destruct (csv_line lines n x st); simpl; [apply IH | reflexivity].
Qed.

Lemma csv_loop_cons lines n x rest st :
  csv_loop lines n (x :: rest) st = bind (csv_line lines n x st) (fun st' => csv_loop lines (S n) rest st').
Proof. reflexivity. Qed.

Lemma windows_loop_cons lines n x rest st :
  windows_loop lines n (x :: rest) st =
  bind (windows_line lines n x st) (fun st' => windows_loop lines (S n) rest st').
Proof. reflexivity. Qed.

Lemma windows_loop_app lines n l1 l2 st :
  windows_loop lines n (l1 ++ l2) st =
  bind (windows_loop lines n l1 st) (fun st' => windows_loop lines (n + length l1) l2 st').
Proof.
  revert n st. induction l1 as [|x l1 IH]; intros n st; simpl.
  - rewrite Nat.add_0_r. reflexivity.
  - replace (n + S (length l1))%nat with (S n + length l1)%nat by lia.
    destruct (windows_line lines n x st); simpl; [apply IH | reflexivity].
Qed.

Lemma parse_all_app fs l1 l2 acc :
  parse_all fs (l1 ++ l2) acc = bind (parse_all fs l1 acc) (parse_all fs l2).
Proof.
  revert acc. induction l1 as [|x l1 IH]; intros acc; simpl; [reflexivity|].
  destruct (fs x); [|reflexivity].
  destruct (fromFile x l); simpl; [apply IH | reflexivity].
Qed.

(** ** String lemmas *)

Lemma prefix_cons_inv a s1 s2 :
  String.prefix (String a s1) s2 = true -> exists s2', s2 = String a s2'.
Proof.
  destruct s2 as [|b s2']; simpl; [discriminate|].
  destruct (ascii_dec a b) as [<-|]; [eauto | discriminate].
Qed.

(** the first field of s.split(c) is a prefix of s *)
Lemma split_on_hd_prefix c s : String.prefix (hd EmptyString (split_on c s)) s = true.
Proof.
  induction s as [|d s IH]; simpl; [reflexivity|].
  destruct (split_on c s) as [|f fs] eqn:E; simpl; [reflexivity|].
  destruct (Ascii.eqb d c); simpl; [reflexivity|].
  simpl in IH. destruct (ascii_dec d d); [exact IH | contradiction].
Qed.

(** every histogram title starts with a capital letter *)
Lemma Histograms_head t :
  in_list t Histograms = true ->
  exists a t', t = String a t' /\ (65 <= nat_of_ascii a <= 90)%nat.
Proof.
  unfold in_list. intros H. apply existsb_exists in H as [x [Hin Heq]].
  apply String.eqb_eq in Heq. subst x.
  simpl in Hin.
  repeat (destruct Hin as [<-|Hin]; [do 2 eexists; split; [reflexivity | vm_compute; lia] |]).
  contradiction.
Qed.

Lemma startswith_capital_s line a t' p :
  String.prefix (String a t') line = true -> (65 <= nat_of_ascii a <= 90)%nat ->
  startswith line (String "s" p) = false.
Proof.
  intros Hp Ha. apply prefix_cons_inv in Hp as [l' ->].
  unfold startswith; cbn -[ascii_dec]. destruct (ascii_dec "s" a) as [<-|]; [vm_compute in Ha; lia | reflexivity].
Qed.

(** ** The CSV histogram pair *)

(** A line whose first field is a histogram title t, read in the normal
    state, takes its values from the next line, which is then checked to
    start with t and skipped. *)
Lemma csv_hist_pair (name : string) (pre : list string) (L V : string) (post : list string)
    (st : ScanStats) (t : string) :
  let lines := (pre ++ L :: V :: post)%list in
  hd EmptyString (split_on "," L) = t ->
  in_list t Histograms = true ->
  csv_loop lines 0 pre (new_stats name, None) = Ok (st, None) ->
  csv_loop lines 0 (pre ++ [L; V])%list (new_stats name, None) =
  if startswith V t
  then Ok (set_hist t (mkHisto t (tl (split_on "," L)) (map PStr (tl (split_on "," V)))) st, None)
  else Err AssertionError.
Proof.
  intros lines Ht Hh Hpre. rewrite csv_loop_app, Hpre. unfold bind at 1. cbv beta iota.
  pose proof (split_on_hd_prefix "," L) as HpL. rewrite Ht in HpL.
  destruct (Histograms_head t Hh) as [a [t' [-> Ha]]].
  rewrite Nat.add_0_l, !csv_loop_cons. unfold csv_line at 1. cbv beta iota zeta.
  rewrite (startswith_capital_s L a t' "can " HpL Ha).
  change ("summary," ++ dq) with (String "s" ("ummary," ++ dq)).
  rewrite (startswith_capital_s L a t' _ HpL Ha), andb_false_l.
  rewrite Ht, Hh. unfold lines. rewrite py_nth_after.
  cbn [bind csv_loop]. unfold csv_line. cbv beta iota zeta.
  destruct (startswith V (String a t')); reflexivity.
Qed.

(** C3: read in the normal state, the label line
    "Maximum Values,Size,Used,Depth" and the value line
    "Maximum Values,14579924992,19489326592,19" store a histogram titled
    "Maximum Values" with labels Size, Used, Depth and, as values, the raw
    string fields "14579924992", "19489326592", "19": the CSV parser does
    not convert them to integers. *)
Theorem fromCSV_maxvalues_raw_fields (name : string) (pre post : list string) (st : ScanStats) :
  csv_loop (pre ++ maxval_label_line :: maxval_value_line :: post)%list
    0 pre (new_stats name, None) = Ok (st, None) ->
  csv_loop (pre ++ maxval_label_line :: maxval_value_line :: post)%list
    0 (pre ++ [maxval_label_line; maxval_value_line])%list (new_stats name, None) =
  Ok (set_hist "Maximum Values"
        (mkHisto "Maximum Values" ["Size"; "Used"; "Depth"]
           [PStr "14579924992"; PStr "19489326592"; PStr "19"]) st, None).
Proof.
  intros Hpre.
  rewrite (csv_hist_pair name pre _ _ post st "Maximum Values"); [ | reflexivity | reflexivity | exact Hpre].
  reflexivity.
Qed.

Lemma fromCSV_maxvalues_raw_fields_witness :
  csv_loop [maxval_label_line; maxval_value_line; "Total count,5"] 0 [] (new_stats "scan.csv", None)
    = Ok (new_stats "scan.csv", None) /\
  csv_loop [maxval_label_line; maxval_value_line; "Total count,5"] 0
    [maxval_label_line; maxval_value_line] (new_stats "scan.csv", None) =
  Ok (set_hist "Maximum Values"
        (mkHisto "Maximum Values" ["Size"; "Used"; "Depth"]
           [PStr "14579924992"; PStr "19489326592"; PStr "19"]) (new_stats "scan.csv"), None).
Proof.
  split; [reflexivity|].
  apply (fromCSV_maxvalues_raw_fields "scan.csv" [] ["Total count,5"] (new_stats "scan.csv")).
  reflexivity.
Defined.

(** C7: after a line whose first field is a histogram title t, the line
    marked to be skipped is the very next one, the value row itself.  It
    must start with t (a string prefix test): if it does not, the parse
    of the file fails with AssertionError; if it does, it is skipped, its
    content used only as the histogram's values. *)
Theorem fromCSV_skip_check_is_prefix (name : string) (pre : list string) (L V : string)
    (post : list string) (st : ScanStats) (t : string) :
  hd EmptyString (split_on "," L) = t ->
  in_list t Histograms = true ->
  csv_loop (pre ++ L :: V :: post)%list 0 pre (new_stats name, None) = Ok (st, None) ->
  (startswith V t = false -> fromCSV name (pre ++ L :: V :: post)%list = Err AssertionError) /\
  (startswith V t = true ->
   csv_loop (pre ++ L :: V :: post)%list 0 (pre ++ [L; V])%list (new_stats name, None) =
   Ok (set_hist t (mkHisto t (tl (split_on "," L)) (map PStr (tl (split_on "," V)))) st, None)).
Proof.
  intros Ht Hh Hpre.
  pose proof (csv_hist_pair name pre L V post st t Ht Hh Hpre) as Hpair. cbv zeta in Hpair.
  split; intros Hs; rewrite Hs in Hpair; [|exact Hpair].
  unfold fromCSV.
  assert (Hl : (pre ++ L :: V :: post = (pre ++ [L; V]) ++ post)%list)
    by (rewrite <- app_assoc; reflexivity).
  rewrite Hl at 2. rewrite csv_loop_app, Hpair. reflexivity.
Qed.

Lemma fromCSV_skip_check_is_prefix_witness :
  hd EmptyString (split_on "," "Maximum Values,Size") = "Maximum Values" /\
  in_list "Maximum Values" Histograms = true /\
  csv_loop (["Maximum Values,Size"; "Maximum Values,5"; "Depth"])%list 0 [] (new_stats "scan.csv", None)
    = Ok (new_stats "scan.csv", None) /\
  ((startswith "Maximum Values,5" "Maximum Values" = false ->
    fromCSV "scan.csv" ["Maximum Values,Size"; "Maximum Values,5"; "Depth"] = Err AssertionError) /\
   (startswith "Maximum Values,5" "Maximum Values" = true ->
    csv_loop ["Maximum Values,Size"; "Maximum Values,5"; "Depth"] 0
      ["Maximum Values,Size"; "Maximum Values,5"] (new_stats "scan.csv", None) =
    Ok (set_hist "Maximum Values"
          (mkHisto "Maximum Values" (tl (split_on "," "Maximum Values,Size"))
             (map PStr (tl (split_on "," "Maximum Values,5")))) (new_stats "scan.csv"), None))).
Proof.
  split; [reflexivity|]. split; [reflexivity|]. split; [reflexivity|].
  apply (fromCSV_skip_check_is_prefix "scan.csv" [] "Maximum Values,Size" "Maximum Values,5"
           ["Depth"] (new_stats "scan.csv") "Maximum Values"); reflexivity.
Defined.

(** C8: after a histogram title line of the Windows report, the loop goes
    on with the very next line, the label row given to getfields, and
    evaluates it against all the rules of the loop body; then it goes on
    with the line after it, the value row, and evaluates that one against
    all the rules too, from the record the label row left. *)
Theorem fromWindows_continues_at_label_row (name : string) (pre : list string)
    (T L1 L2 : string) (post : list string) (st : ScanStats) (ls : list string) (vs : list Z) :
  windows_loop (pre ++ T :: L1 :: L2 :: post)%list 0 pre (new_stats name) = Ok st ->
  startswith T "xcp scan" = false ->
  contains T " errors, " = false ->
  in_list (windows_title T) Histograms = true ->
  getfields L1 L2 = Ok (ls, vs) ->
  windows_loop (pre ++ T :: L1 :: L2 :: post)%list 0 (pre ++ [T; L1])%list (new_stats name) =
  windows_line (pre ++ T :: L1 :: L2 :: post)%list (S (length pre)) L1
    (set_hist (windows_title T) (mkHisto (windows_title T) ls (map PInt vs)) st) /\
  forall st1,
    windows_line (pre ++ T :: L1 :: L2 :: post)%list (S (length pre)) L1
      (set_hist (windows_title T) (mkHisto (windows_title T) ls (map PInt vs)) st) = Ok st1 ->
    windows_loop (pre ++ T :: L1 :: L2 :: post)%list 0 (pre ++ [T; L1; L2])%list (new_stats name) =
    windows_line (pre ++ T :: L1 :: L2 :: post)%list (S (S (length pre))) L2 st1.
Proof.
  intros Hpre Hx He Hh Hg.
  assert (H1 : windows_loop (pre ++ T :: L1 :: L2 :: post)%list 0 (pre ++ [T; L1])%list (new_stats name) =
               windows_line (pre ++ T :: L1 :: L2 :: post)%list (S (length pre)) L1
                 (set_hist (windows_title T) (mkHisto (windows_title T) ls (map PInt vs)) st)).
  { rewrite windows_loop_app, Hpre. unfold bind at 1. cbv beta iota.
    rewrite Nat.add_0_l, windows_loop_cons. unfold windows_line at 1.
    rewrite Hx, He. cbv beta iota zeta. unfold bind at 2. cbv beta iota.
    rewrite Hh, py_nth_after, py_nth_after2. cbn [bind]. rewrite Hg. cbn [bind fst snd].
    rewrite windows_loop_cons.
    destruct (windows_line _ _ L1 _); reflexivity. }
  split; [exact H1|]. intros st1 Hst1.
  replace (pre ++ [T; L1; L2])%list with ((pre ++ [T; L1]) ++ [L2])%list
    by (rewrite <- app_assoc; reflexivity).
  rewrite windows_loop_app, H1, Hst1. cbn [bind]. rewrite windows_loop_cons.
  rewrite length_app. cbn [length].
  replace (0 + (length pre + 2))%nat with (S (S (length pre))) by lia.
  destruct (windows_line _ _ L2 st1); reflexivity.
Qed.

Lemma fromWindows_continues_at_label_row_witness :
  windows_loop win_lines 0 [] (new_stats "scan.txt") = Ok (new_stats "scan.txt") /\
  startswith "Space used" "xcp scan" = false /\
  contains "Space used" " errors, " = false /\
  in_list (windows_title "Space used") Histograms = true /\
  getfields "      Depth" "        7" = Ok (["Depth"], [7]) /\
  windows_loop win_lines 0 ["Space used"; "      Depth"] (new_stats "scan.txt") =
  windows_line win_lines 1 "      Depth"
    (set_hist (windows_title "Space used")
       (mkHisto (windows_title "Space used") ["Depth"] (map PInt [7])) (new_stats "scan.txt")) /\
  exists st1,
    windows_line win_lines 1 "      Depth"
      (set_hist (windows_title "Space used")
         (mkHisto (windows_title "Space used") ["Depth"] (map PInt [7])) (new_stats "scan.txt")) = Ok st1 /\
    windows_loop win_lines 0 ["Space used"; "      Depth"; "        7"] (new_stats "scan.txt") =
    windows_line win_lines 2 "        7" st1.
Proof.
  destruct (fromWindows_continues_at_label_row "scan.txt" [] "Space used" "      Depth" "        7"
              ["        8"] (new_stats "scan.txt") ["Depth"] [7]) as [H1 H2];
    [reflexivity | reflexivity | reflexivity | vm_compute; reflexivity | vm_compute; reflexivity |].
  split; [reflexivity|]. split; [reflexivity|]. split; [reflexivity|].
  split; [vm_compute; reflexivity|]. split; [vm_compute; reflexivity|].
  split; [exact H1|].
  destruct (windows_line win_lines 1 "      Depth"
              (set_hist (windows_title "Space used")
                 (mkHisto (windows_title "Space used") ["Depth"] (map PInt [7])) (new_stats "scan.txt")))
    as [st1|e] eqn:E; [|vm_compute in E; discriminate].
  exists st1. split; [reflexivity|]. exact (H2 st1 E).
Defined.

(** ** The batch *)

Definition nl : string := String (ascii_of_nat 10) EmptyString.

(** "bad.csv" breaks the continuation check, "good.csv" is well formed *)
Definition batch_fs (p : string) : option (list string) :=
  if String.eqb p "bad.csv" then Some ["Depth,a" ++ nl; "x" ++ nl]
  else if String.eqb p "good.csv" then Some ["Total space used,5" ++ nl]
  else None.

(** C6, refuted: the parse error of bad.csv is re-raised by the loop, so
    good.csv after it is never parsed and no table is produced. *)
Lemma main_bad_file_aborts_batch :
  main batch_fs ["bad.csv"; "good.csv"] = Err AssertionError /\
  ~ exists out, main batch_fs ["bad.csv"; "good.csv"] = Ok out.
Proof.
  assert (H : main batch_fs ["bad.csv"; "good.csv"] = Err AssertionError)
    by (vm_compute; reflexivity).
  split; [exact H|]. intros [out Hout]. rewrite H in Hout. discriminate.
Qed.

(** C6: an exception raised while reading or parsing one input file
    propagates out of the batch: whatever the files after it contain, they
    are not parsed and the whole run ends with that exception, no table
    being written. *)
Theorem main_aborts_at_failing_file (fs : string -> option (list string))
    (pre : list string) (name : string) (post : list string)
    (m : list (string * ScanStats)) (e : exn) :
  parse_all fs pre [] = Ok m ->
  (fs name = None /\ e = IOError) \/
  (exists lines, fs name = Some lines /\ fromFile name lines = Err e) ->
  main fs (pre ++ name :: post)%list = Err e.
Proof.
  intros Hpre Hfail. unfold main. rewrite parse_all_app, Hpre. cbn [bind parse_all].
  destruct Hfail as [[Hn ->] | [lines [Hs Hf]]].
  - rewrite Hn. reflexivity.
  - rewrite Hs, Hf. reflexivity.
Qed.

Lemma main_aborts_at_failing_file_witness :
  parse_all batch_fs [] [] = Ok [] /\
  ((batch_fs "bad.csv" = None /\ AssertionError = IOError) \/
   (exists lines, batch_fs "bad.csv" = Some lines /\ fromFile "bad.csv" lines = Err AssertionError)) /\
  main batch_fs ([] ++ "bad.csv" :: ["good.csv"])%list = Err AssertionError.
Proof.
  assert (Hf : (batch_fs "bad.csv" = None /\ AssertionError = IOError) \/
               (exists lines, batch_fs "bad.csv" = Some lines /\
                              fromFile "bad.csv" lines = Err AssertionError))
    by (right; eexists; split; [reflexivity | vm_compute; reflexivity]).
  split; [reflexivity|]. split; [exact Hf|].
  exact (main_aborts_at_failing_file batch_fs [] "bad.csv" ["good.csv"] [] AssertionError
           eq_refl Hf).
Defined.

(** ** Format dispatch *)

Lemma sapp_assoc (a b c : string) : (a ++ b) ++ c = a ++ (b ++ c).
Proof. induction a as [|x a IH]; simpl; [reflexivity | now rewrite IH]. Qed.

Lemma sapp_nil_r (a : string) : a ++ "" = a.
Proof. induction a as [|x a IH]; simpl; [reflexivity | now rewrite IH]. Qed.

Lemma srev_app (a b : string) : srev (a ++ b) = srev b ++ srev a.
Proof.
  induction a as [|x a IH]; simpl.
  - now rewrite sapp_nil_r.
  - now rewrite IH, sapp_assoc.
Qed.

Lemma srev_srev (s : string) : srev (srev s) = s.
Proof. induction s as [|x s IH]; simpl; [reflexivity | now rewrite srev_app, IH]. Qed.

Lemma prefix_app (p q : string) : String.prefix p (p ++ q) = true.
Proof.
  induction p as [|x p IH]; simpl; [destruct q; reflexivity|].
  destruct (ascii_dec x x); [exact IH | contradiction].
Qed.

Lemma prefix_true_app (p s : string) : String.prefix p s = true -> exists q, s = p ++ q.
Proof.
  revert s. induction p as [|x p IH]; intros s H; [now exists s|].
  destruct s as [|y s]; simpl in H; [discriminate|].
  destruct (ascii_dec x y) as [<-|]; [|discriminate].
  destruct (IH s H) as [q ->]. now exists q.
Qed.

(** s.endswith(suf) holds exactly when s is some p followed by suf *)
Lemma endswith_iff (s suf : string) : endswith s suf = true <-> exists p, s = p ++ suf.
Proof.
  unfold endswith. split.
  - intros H. destruct (prefix_true_app _ _ H) as [q Hq].
    exists (srev q). rewrite <- (srev_srev s), Hq, srev_app, srev_srev. reflexivity.
  - intros [p ->]. rewrite srev_app. apply prefix_app.
Qed.

(** C10: fromFile hands a path to the CSV parser exactly when its last
    three characters are "csv", whatever comes before (so "reportcsv",
    which has no dot, goes to the CSV parser), and every other path to
    the Windows-format parser. *)
Theorem fromFile_dispatch_by_suffix (name : string) (lines : list string) :
  (((exists p, name = p ++ "csv") /\ fromFile name lines = fromCSV name lines) \/
   (~ (exists p, name = p ++ "csv") /\ fromFile name lines = fromWindows name lines)) /\
  fromFile "reportcsv" lines = fromCSV "reportcsv" lines.
Proof.
  split; [|reflexivity].
  unfold fromFile. destruct (endswith name "csv") eqn:E.
  - left. split; [apply endswith_iff; exact E | reflexivity].
  - right. split; [|reflexivity].
    intros Hp. apply endswith_iff in Hp. congruence.
Qed.

(** ** The report *)

Lemma py_nth_head {A} (x : A) (l : list A) : py_nth (x :: l) 0 = Ok x.
Proof. exact (py_nth_nat (x :: l) 0). Qed.

Lemma py_nth_0_In {A} (l : list A) (x : A) : py_nth l 0 = Ok x -> In x l.
Proof.
  destruct l as [|y l]; [discriminate|].
  rewrite py_nth_head. intros H. injection H as <-. left; reflexivity.
Qed.

Section Lookups.

Variables (names : list string) (m1 m2 : list (string * ScanStats)).
Hypothesis Hsame : forall n, In n names -> dict_get n m1 = dict_get n m2.

Lemma header_loop_lookups titles h0 h :
  header_loop names m1 titles h0 h = header_loop names m2 titles h0 h.
Proof.
  revert h0 h. induction titles as [|title titles IH]; intros h0 h; simpl; [reflexivity|].
  destruct (String.eqb title TopExt); [apply IH|].
  destruct (py_nth names 0) as [n0|e] eqn:En; simpl; [|reflexivity].
  unfold dict_item. rewrite (Hsame n0 (py_nth_0_In _ _ En)).
  destruct (dict_get n0 m2) as [s0|]; simpl; [|reflexivity].
  destruct (dict_get title (hists s0)); apply IH.
Qed.

Lemma build_rows_lookups :
  forall ns, (forall n, In n ns -> In n names) -> build_rows ns m1 = build_rows ns m2.
Proof.
  induction ns as [|n ns IH]; intros Hin; simpl; [reflexivity|].
  unfold dict_item. rewrite (Hsame n (Hin n (or_introl eq_refl))).
  destruct (dict_get n m2); simpl; [|reflexivity].
  rewrite IH; [reflexivity|]. intros x Hx. apply Hin. right; exact Hx.
Qed.

End Lookups.

(** C9: the report is a function of the file names, in their order, and
    of the record each of them maps to: two mappings that agree on every
    supplied name give the same header rows and the same sorted rows,
    whatever order their items are stored in; in particular running it
    twice on the same records gives the same output. *)
Theorem aggregate_deterministic (names : list string) (m1 m2 : list (string * ScanStats)) :
  (forall n, In n names -> dict_get n m1 = dict_get n m2) ->
  build_table names m1 = build_table names m2 /\ aggregate names m1 = aggregate names m2.
Proof.
  intros Hsame.
  assert (Ht : build_table names m1 = build_table names m2).
  { unfold build_table, build_header.
    rewrite (header_loop_lookups names m1 m2 Hsame).
    rewrite (build_rows_lookups names m1 m2 Hsame names (fun n H => H)).
    reflexivity. }
  split; [exact Ht|]. unfold aggregate. rewrite Ht. reflexivity.
Qed.

Definition rec_tsu (name : string) (n : Z) : ScanStats :=
  set_single "Total space used" n (new_stats name).

Definition agg_names : list string := ["a.txt"; "b.txt"; "c.txt"].
Definition agg_map : list (string * ScanStats) :=
  [("a.txt", rec_tsu "a.txt" 100); ("b.txt", rec_tsu "b.txt" 300); ("c.txt", rec_tsu "c.txt" 200)].
Definition agg_map_rev : list (string * ScanStats) := rev agg_map.

Lemma aggregate_deterministic_witness :
  (forall n, In n agg_names -> dict_get n agg_map = dict_get n agg_map_rev) /\
  build_table agg_names agg_map = build_table agg_names agg_map_rev /\
  aggregate agg_names agg_map = aggregate agg_names agg_map_rev.
Proof.
  assert (H : forall n, In n agg_names -> dict_get n agg_map = dict_get n agg_map_rev).
  { intros n Hn. destruct Hn as [<- | [<- | [<- | []]]]; reflexivity. }
  split; [exact H|]. exact (aggregate_deterministic agg_names agg_map agg_map_rev H).
Defined.

(** *** The sort *)

Section SortDesc.

Context {A : Type} (key : A -> pyval).

Definition not_below (a b : A) : Prop := py_lt (key a) (key b) = false.

Lemma py_lt_asym x y : py_lt x y = true -> py_lt y x = false.
Proof.
  destruct x as [p|s|], y as [q|u|]; simpl; try discriminate; try reflexivity.
  - intros H. apply Z.ltb_lt in H. apply Z.ltb_ge. lia.
  - rewrite (String.compare_antisym u s).
    destruct (String.compare s u); simpl; congruence.
Qed.

Lemma insert_desc_perm x l : Permutation (insert_desc key x l) (x :: l).
Proof.
  induction l as [|y l IH]; simpl; [reflexivity|].
  destruct (py_lt (key y) (key x)); [reflexivity|].
  eapply perm_trans; [apply perm_skip; exact IH | apply perm_swap].
Qed.

Lemma sort_desc_perm_acc l acc :
  Permutation (fold_left (fun acc x => insert_desc key x acc) l acc) (l ++ acc).
Proof.
  revert acc. induction l as [|x l IH]; intros acc; simpl; [reflexivity|].
  eapply perm_trans; [apply IH|].
  eapply perm_trans; [apply Permutation_app_head, insert_desc_perm|].
  apply Permutation_sym, Permutation_middle.
Qed.

Lemma sort_desc_perm l : Permutation (sort_desc key l) l.
Proof.
  unfold sort_desc. rewrite <- (app_nil_r l) at 2. apply sort_desc_perm_acc.
Qed.

Lemma insert_desc_sorted x l : Sorted not_below l -> Sorted not_below (insert_desc key x l).
Proof.
  induction l as [|y l IH]; intros Hs; simpl; [repeat constructor|].
  destruct (py_lt (key y) (key x)) eqn:E.
  - constructor; [exact Hs|]. constructor. unfold not_below. apply py_lt_asym. exact E.
  - apply Sorted_inv in Hs as [Hs Hhd]. constructor; [apply IH; exact Hs|].
    destruct l as [|z l]; simpl; [constructor; exact E|].
    destruct (py_lt (key z) (key x)); constructor; [exact E|].
    inversion Hhd; assumption.
Qed.

Lemma sort_desc_sorted l : Sorted not_below (sort_desc key l).
Proof.
  unfold sort_desc.
  assert (G : forall acc, Sorted not_below acc ->
            Sorted not_below (fold_left (fun acc x => insert_desc key x acc) l acc)).
  { induction l as [|x l IH]; intros acc Hacc; simpl; [exact Hacc|].
    apply IH, insert_desc_sorted, Hacc. }
  apply G. constructor.
Qed.

End SortDesc.

Lemma Sorted_strengthen {A} (R R' : A -> A -> Prop) (P : A -> Prop) l :
  Sorted R l -> Forall P l -> (forall a b, P a -> P b -> R a b -> R' a b) -> Sorted R' l.
Proof.
  intros Hs Hp Himp. induction Hs as [|a l Hs IH Hhd]; constructor.
  - apply IH. inversion Hp; assumption.
  - destruct Hhd as [|b l' Hab]; constructor.
    inversion Hp as [|? ? Pa Hl]; subst. inversion Hl; subst. apply Himp; assumption.
Qed.

Lemma row_key_make_row name st :
  row_key (make_row name st) =
  match dict_get "Total space used" (single st) with Some n => PInt n | None => PNone end.
Proof. reflexivity. Qed.

Lemma build_rows_spec names m rs :
  build_rows names m = Ok rs ->
  Forall (fun r => exists name st, In name names /\ dict_get name m = Some st /\
                                   r = make_row name st) rs.
Proof.
  revert rs. induction names as [|n names IH]; intros rs H; simpl in H.
  - injection H as <-. constructor.
  - unfold dict_item in H. destruct (dict_get n m) as [st|] eqn:E; [|discriminate].
    simpl in H. destruct (build_rows names m) as [rs'|] eqn:E'; [|discriminate].
    simpl in H. injection H as <-. constructor.
    + exists n, st. split; [left; reflexivity | split; [exact E | reflexivity]].
    + eapply Forall_impl; [|apply IH; reflexivity].
      intros r [x [s [Hx Hr]]]. exists x, s. split; [right; exact Hx | exact Hr].
Qed.

Lemma build_table_inv names m t :
  build_table names m = Ok t ->
  exists hs rs, build_header names m = Ok hs /\ build_rows names m = Ok rs /\
                t = mkTable (fst hs) (snd hs) (sort_desc row_key rs).
Proof.
  unfold build_table. destruct (build_header names m) as [hs|]; simpl; [|discriminate].
  destruct (build_rows names m) as [rs|]; simpl; [|discriminate].
  intros H. injection H as <-. exists hs, rs. auto.
Qed.

(** C5: when every record has the "Total space used" scalar, the data
    rows come out ordered by that value (the cell row[3]), largest first,
    and they are exactly the rows built for the files. *)
Theorem build_table_rows_sorted_desc (names : list string) (m : list (string * ScanStats))
    (t : table) :
  build_table names m = Ok t ->
  (forall name, In name names ->
     exists st n, dict_get name m = Some st /\ dict_get "Total space used" (single st) = Some n) ->
  (exists rs, build_rows names m = Ok rs /\ Permutation (rows t) rs) /\
  Forall (fun r => exists name st n, In name names /\ dict_get name m = Some st /\
                     dict_get "Total space used" (single st) = Some n /\ row_key r = PInt n)
    (rows t) /\
  Sorted (fun r1 r2 => exists n1 n2, row_key r1 = PInt n1 /\ row_key r2 = PInt n2 /\ n2 <= n1)
    (rows t).
Proof.
  intros Hb Hall. destruct (build_table_inv names m t Hb) as [hs [rs [_ [Hr ->]]]].
  cbn [rows].
  assert (HF : Forall (fun r => exists name st n, In name names /\ dict_get name m = Some st /\
                  dict_get "Total space used" (single st) = Some n /\ row_key r = PInt n)
                 (sort_desc row_key rs)).
  { apply Forall_forall. intros r Hin.
    apply (Permutation_in _ (sort_desc_perm row_key rs)) in Hin.
    pose proof (build_rows_spec names m rs Hr) as Hs. rewrite Forall_forall in Hs.
    destruct (Hs r Hin) as [name [st [Hn [Hg ->]]]].
    destruct (Hall name Hn) as [st' [n [Hg' Ht]]]. rewrite Hg in Hg'. injection Hg' as <-.
    exists name, st, n. rewrite row_key_make_row, Ht. auto. }
  split; [exists rs; split; [exact Hr | apply sort_desc_perm]|].
  split; [exact HF|].
  apply (Sorted_strengthen _ _ _ _ (sort_desc_sorted row_key rs) HF).
  intros a b [na [sa [n1 [_ [_ [_ Ha]]]]]] [nb [sb [n2 [_ [_ [_ Hb']]]]]] Hab.
  exists n1, n2. split; [exact Ha|]. split; [exact Hb'|].
  unfold not_below in Hab. rewrite Ha, Hb' in Hab. simpl in Hab. apply Z.ltb_ge in Hab. exact Hab.
Qed.

Definition agg_table : table :=
  match build_table agg_names agg_map with Ok t => t | Err _ => mkTable [] [] [] end.

Lemma build_table_rows_sorted_desc_witness :
  build_table agg_names agg_map = Ok agg_table /\
  map row_key (rows agg_table) = [PInt 300; PInt 200; PInt 100] /\
  (exists rs, build_rows agg_names agg_map = Ok rs /\ Permutation (rows agg_table) rs) /\
  Sorted (fun r1 r2 => exists n1 n2, row_key r1 = PInt n1 /\ row_key r2 = PInt n2 /\ n2 <= n1)
    (rows agg_table).
Proof.
  assert (Hb : build_table agg_names agg_map = Ok agg_table) by (vm_compute; reflexivity).
  assert (Hall : forall name, In name agg_names ->
            exists st n, dict_get name agg_map = Some st /\
                         dict_get "Total space used" (single st) = Some n).
  { intros name Hn. destruct Hn as [<- | [<- | [<- | []]]]; do 2 eexists; split; reflexivity. }
  destruct (build_table_rows_sorted_desc agg_names agg_map agg_table Hb Hall) as [Hp [_ Hs]].
  split; [exact Hb|]. split; [vm_compute; reflexivity|]. split; [exact Hp | exact Hs].
Defined.

(** *** Column counts *)

(** two records: the reference "a.txt" has no Created histogram, "b.txt" has one *)
Definition parity_map : list (string * ScanStats) :=
  [("a.txt", new_stats "a.txt");
   ("b.txt", set_hist "Created" (mkHisto "Created" ["x"] [PInt 1]) (new_stats "b.txt"))].

(** the label count of the included histograms of the reference record *)
Fixpoint hist_width (ref : ScanStats) (titles : list string) : nat :=
  match titles with
  | [] => 0
  | title :: titles' =>
      if String.eqb title TopExt then hist_width ref titles'
      else match dict_get title (hists ref) with
           | Some h => length (h_labels h) + hist_width ref titles'
           | None => hist_width ref titles'
           end
  end.

(** a record with the reference record's histograms (bar Top File
    Extensions), each with as many values as the reference has labels *)
Definition same_shape (ref st : ScanStats) : Prop :=
  forall title, In title Histograms -> title <> TopExt ->
    match dict_get title (hists ref), dict_get title (hists st) with
    | Some h, Some h' => length (h_values h') = length (h_labels h)
    | None, None => True
    | _, _ => False
    end.

Definition labels_nonempty (ref : ScanStats) : Prop :=
  forall title h, In title Histograms -> title <> TopExt ->
    dict_get title (hists ref) = Some h -> h_labels h <> [].

Lemma header_loop_cons names m title titles h0 h :
  header_loop names m (title :: titles) h0 h =
  if String.eqb title TopExt then header_loop names m titles h0 h
  else
    name0 <- py_nth names 0 ;;
    stats0 <- dict_item name0 m ;;
    match dict_get title (hists stats0) with
    | None => header_loop names m titles h0 h
    | Some hh =>
        header_loop names m titles
          (h0 ++ [title] ++ repeat EmptyString (length (h_labels hh) - 1)) (h ++ h_labels hh)
    end.
Proof. reflexivity. Qed.

Section Parity.

Variables (name0 : string) (rest : list string) (m : list (string * ScanStats)) (ref : ScanStats).
Hypothesis Href : dict_get name0 m = Some ref.

Lemma header_loop_width titles h0 h :
  (forall title hh, In title titles -> title <> TopExt ->
     dict_get title (hists ref) = Some hh -> h_labels hh <> []) ->
  exists h0' h', header_loop (name0 :: rest) m titles h0 h = Ok (h0', h') /\
    length h0' = (length h0 + hist_width ref titles)%nat /\
    length h' = (length h + hist_width ref titles)%nat.
Proof.
  revert h0 h. induction titles as [|title titles IH]; intros h0 h Hne.
  - exists h0, h. simpl. rewrite !Nat.add_0_r. auto.
  - rewrite header_loop_cons. cbn [hist_width].
    assert (Hne' : forall title' hh, In title' titles -> title' <> TopExt ->
              dict_get title' (hists ref) = Some hh -> h_labels hh <> [])
      by (intros; eapply Hne; eauto; right; assumption).
    destruct (String.eqb title TopExt) eqn:Et; [apply IH, Hne'|].
    apply String.eqb_neq in Et.
    rewrite py_nth_head. cbn [bind]. unfold dict_item. rewrite Href. cbn [bind].
    destruct (dict_get title (hists ref)) as [hh|] eqn:Eh; [|apply IH, Hne'].
    destruct (IH (h0 ++ [title] ++ repeat EmptyString (length (h_labels hh) - 1))%list
                 (h ++ h_labels hh)%list Hne') as [h0' [h' [Hl [L0 L1]]]].
    exists h0', h'. split; [exact Hl|].
    assert (Hn : h_labels hh <> []) by (eapply Hne; [left; reflexivity | exact Et | exact Eh]).
    destruct (h_labels hh) as [|l ls] eqn:El; [contradiction|].
    rewrite L0, L1, !length_app, repeat_length. simpl. lia.
Qed.

Lemma row_hists_width st titles :
  (forall title, In title titles -> title <> TopExt ->
     match dict_get title (hists ref), dict_get title (hists st) with
     | Some h, Some h' => length (h_values h') = length (h_labels h)
     | None, None => True
     | _, _ => False
     end) ->
  length (row_hists st titles) = hist_width ref titles.
Proof.
  induction titles as [|title titles IH]; intros Hs; simpl; [reflexivity|].
  assert (Hs' : forall title', In title' titles -> title' <> TopExt ->
     match dict_get title' (hists ref), dict_get title' (hists st) with
     | Some h, Some h' => length (h_values h') = length (h_labels h)
     | None, None => True
     | _, _ => False
     end) by (intros; apply Hs; [right|]; assumption).
  destruct (String.eqb title TopExt) eqn:Et; [apply IH, Hs'|].
  apply String.eqb_neq in Et.
  specialize (Hs title (or_introl eq_refl) Et).
  destruct (dict_get title (hists ref)) as [h|], (dict_get title (hists st)) as [h'|];
    try contradiction.
  - rewrite length_app, Hs, IH by exact Hs'. reflexivity.
  - apply IH, Hs'.
Qed.

End Parity.

Lemma make_row_length name st :
  length (make_row name st) = (10 + length (row_hists st Histograms))%nat.
Proof. unfold make_row. rewrite !length_app. reflexivity. Qed.

Lemma build_rows_widths (m : list (string * ScanStats)) (ref : ScanStats) (ns : list string) :
  (forall name, In name ns -> exists st, dict_get name m = Some st /\ same_shape ref st) ->
  exists rs, build_rows ns m = Ok rs /\
             Forall (fun r => length r = (10 + hist_width ref Histograms)%nat) rs.
Proof.
  induction ns as [|n ns IH]; intros Hall; simpl.
  - exists []. auto.
  - destruct (Hall n (or_introl eq_refl)) as [st [Hg Hsh]].
    destruct IH as [rs [Hr Hf]]; [intros x Hx; apply Hall; right; exact Hx|].
    unfold dict_item. rewrite Hg, Hr. cbn [bind].
    exists (make_row n st :: rs). split; [reflexivity|]. constructor; [|exact Hf].
    rewrite make_row_length, (row_hists_width ref st Histograms); [reflexivity|].
    intros title Hin Hne. apply Hsh; assumption.
Qed.

(** X: the two header rows have the same number of cells and so does
    every data row, provided each histogram of the reference (first)
    record other than Top File Extensions has at least one label, and
    every record has exactly the reference record's histograms (bar Top
    File Extensions), each with as many values as the reference has labels
    for it.  A histogram absent from the reference record contributes no
    header cell. *)
Theorem build_table_column_parity (names : list string) (m : list (string * ScanStats))
    (name0 : string) (rest : list string) (ref : ScanStats) :
  names = name0 :: rest ->
  dict_get name0 m = Some ref ->
  labels_nonempty ref ->
  (forall name, In name names -> exists st, dict_get name m = Some st /\ same_shape ref st) ->
  exists t, build_table names m = Ok t /\
    length (header0 t) = length (header t) /\
    Forall (fun r => length r = length (header t)) (rows t).
Proof.
  intros -> Href Hne Hall.
  destruct (header_loop_width name0 rest m ref Href Histograms
              (["" ; "" ; ""] ++ map (fun _ => EmptyString) SingleValueOutputs)%list
              (["" ; "Errors" ; ""] ++ SingleValueOutputs)%list)
    as [h0' [h' [Hh [L0 L1]]]].
  { intros title hh Hin Ht Hg. exact (Hne title hh Hin Ht Hg). }
  destruct (build_rows_widths m ref (name0 :: rest) Hall) as [rs [Hr Hf]].
  exists (mkTable h0' h' (sort_desc row_key rs)).
  split; [unfold build_table, build_header; rewrite Hh, Hr; reflexivity|].
  cbn [header0 header rows]. rewrite L0, L1. split; [reflexivity|].
  apply Forall_forall. intros r Hin.
  apply (Permutation_in _ (sort_desc_perm row_key rs)) in Hin.
  rewrite Forall_forall in Hf. rewrite (Hf r Hin). reflexivity.
Qed.

Definition depth_rec (name : string) (v : Z) : ScanStats :=
  set_hist "Depth" (mkHisto "Depth" ["d"] [PInt v]) (new_stats name).

Definition parity_ok_map : list (string * ScanStats) :=
  [("a.txt", depth_rec "a.txt" 1); ("b.txt", depth_rec "b.txt" 2)].

Lemma build_table_column_parity_witness :
  dict_get "a.txt" parity_ok_map = Some (depth_rec "a.txt" 1) /\
  labels_nonempty (depth_rec "a.txt" 1) /\
  (forall name, In name ["a.txt"; "b.txt"] ->
     exists st, dict_get name parity_ok_map = Some st /\ same_shape (depth_rec "a.txt" 1) st) /\
  exists t, build_table ["a.txt"; "b.txt"] parity_ok_map = Ok t /\
    length (header0 t) = length (header t) /\
    Forall (fun r => length r = length (header t)) (rows t).
Proof.
  assert (Hne : labels_nonempty (depth_rec "a.txt" 1)).
  { intros title h Hin _ Hg.
    repeat (destruct Hin as [<- | Hin]; [vm_compute in Hg; try discriminate|]);
      [injection Hg as <-; discriminate | contradiction]. }
  assert (Hall : forall name, In name ["a.txt"; "b.txt"] ->
     exists st, dict_get name parity_ok_map = Some st /\ same_shape (depth_rec "a.txt" 1) st).
  { intros name Hn. destruct Hn as [<- | [<- | []]]; eexists; split; [reflexivity| |reflexivity|];
      intros title Hin _; repeat (destruct Hin as [<- | Hin]; [vm_compute; reflexivity || exact I|]);
      contradiction. }
  split; [reflexivity|]. split; [exact Hne|]. split; [exact Hall|].
  exact (build_table_column_parity ["a.txt"; "b.txt"] parity_ok_map "a.txt" ["b.txt"]
           (depth_rec "a.txt" 1) eq_refl eq_refl Hne Hall).
Defined.

(** * Further properties of the code *)

(** ** The order of the sort keys *)

Lemma string_compare_lt_trans s1 s2 s3 :
  String.compare s1 s2 = Lt -> String.compare s2 s3 = Lt -> String.compare s1 s3 = Lt.
Proof.
  revert s2 s3. induction s1 as [|a s1 IH]; intros [|b s2] [|c s3]; cbn [String.compare];
    try discriminate; try reflexivity.
  unfold Ascii.compare.
  destruct (N.compare_spec (N_of_ascii a) (N_of_ascii b));
  destruct (N.compare_spec (N_of_ascii b) (N_of_ascii c));
  destruct (N.compare_spec (N_of_ascii a) (N_of_ascii c));
  intros Hx Hy; try discriminate; try reflexivity; try lia; eauto.
Qed.

Lemma py_lt_irrefl x : py_lt x x = false.
Proof.
  destruct x as [p|s|]; simpl; [apply Z.ltb_irrefl | | reflexivity].
  pose proof (String.compare_antisym s s) as H.
  destruct (String.compare s s); simpl in *; congruence.
Qed.

Lemma py_lt_trans x y z : py_lt x y = true -> py_lt y z = true -> py_lt x z = true.
Proof.
  destruct x as [p|s|], y as [q|u|], z as [r|w|]; simpl; try discriminate; try reflexivity.
  - rewrite !Z.ltb_lt. lia.
  - destruct (String.compare s u) eqn:E1; try discriminate.
    destruct (String.compare u w) eqn:E2; try discriminate.
    rewrite (string_compare_lt_trans s u w E1 E2). reflexivity.
Qed.

Lemma py_lt_total x y : py_lt x y = true \/ x = y \/ py_lt y x = true.
Proof.
  destruct x as [p|s|], y as [q|u|]; simpl; auto.
  - destruct (Z.lt_trichotomy p q) as [H|[->|H]].
    + left. apply Z.ltb_lt. exact H.
    + auto.
    + right; right. apply Z.ltb_lt. exact H.
  - destruct (String.compare s u) eqn:E; auto.
    + apply String.compare_eq_iff in E. subst. auto.
    + right; right. rewrite String.compare_antisym, E. reflexivity.
Qed.

Lemma py_lt_neg_trans x y z : py_lt x y = false -> py_lt y z = false -> py_lt x z = false.
Proof.
  intros H1 H2. destruct (py_lt x z) eqn:E; [|reflexivity]. exfalso.
  destruct (py_lt_total x y) as [H|[<-|H]]; [congruence | congruence|].
  rewrite (py_lt_trans y x z H E) in H2. discriminate.
Qed.

(** Python == on the values of a cell *)
Definition pyval_eqb (a b : pyval) : bool :=
  match a, b with
  | PInt x, PInt y => Z.eqb x y
  | PStr s, PStr u => String.eqb s u
  | PNone, PNone => true
  | _, _ => false
  end.

Lemma pyval_eqb_eq a b : pyval_eqb a b = true <-> a = b.
Proof.
  destruct a as [x|s|], b as [y|u|]; simpl; split; intros H; try discriminate; try congruence.
  - apply Z.eqb_eq in H. congruence.
  - injection H as ->. apply Z.eqb_refl.
  - apply String.eqb_eq in H. congruence.
  - injection H as ->. apply String.eqb_refl.
Qed.

Lemma filter_none {A} (p : A -> bool) l : (forall z, In z l -> p z = false) -> filter p l = [].
Proof.
  induction l as [|x l IH]; intros H; simpl; [reflexivity|].
  rewrite (H x (or_introl eq_refl)). apply IH. intros z Hz. apply H. right; exact Hz.
Qed.

Section SortStable.

Context {A : Type} (key : A -> pyval) (k : pyval).

Let same (a : A) : bool := pyval_eqb (key a) k.

Lemma sorted_strongly l : Sorted (not_below key) l -> StronglySorted (not_below key) l.
Proof.
  apply Sorted_StronglySorted. intros a b c. unfold not_below. apply py_lt_neg_trans.
Qed.

Lemma insert_desc_filter x l :
  StronglySorted (not_below key) l ->
  filter same (insert_desc key x l) = (filter same l ++ filter same [x])%list.
Proof.
  induction l as [|y l IH]; intros Hs; simpl; [reflexivity|].
  apply StronglySorted_inv in Hs as [Hs Hy].
  destruct (py_lt (key y) (key x)) eqn:E.
  - simpl. destruct (same x) eqn:Px.
    + unfold same in Px. apply pyval_eqb_eq in Px.
      assert (Hn : filter same (y :: l) = []).
      { apply filter_none. intros z [-> | Hz]; unfold same; destruct (pyval_eqb (key z) k) eqn:Pz;
          try reflexivity; apply pyval_eqb_eq in Pz; exfalso.
        - rewrite Pz, <- Px, py_lt_irrefl in E. discriminate.
        - rewrite Forall_forall in Hy. specialize (Hy z Hz). unfold not_below in Hy.
          rewrite Pz, <- Px, E in Hy. discriminate. }
      simpl in Hn. rewrite Hn. reflexivity.
    + rewrite app_nil_r. reflexivity.
  - simpl. destruct (same y); rewrite IH by exact Hs; reflexivity.
Qed.

Lemma sort_desc_filter_acc l acc :
  Sorted (not_below key) acc ->
  filter same (fold_left (fun acc x => insert_desc key x acc) l acc) =
  (filter same acc ++ filter same l)%list.
Proof.
  revert acc. induction l as [|x l IH]; intros acc Hacc; simpl fold_left.
  - rewrite app_nil_r. reflexivity.
  - rewrite IH by (apply insert_desc_sorted, Hacc).
    rewrite insert_desc_filter by (apply sorted_strongly, Hacc).
    change (x :: l) with ([x] ++ l)%list. rewrite filter_app, app_assoc. reflexivity.
Qed.

Lemma sort_desc_filter l : filter same (sort_desc key l) = filter same l.
Proof. unfold sort_desc. rewrite sort_desc_filter_acc by constructor. reflexivity. Qed.

End SortStable.

Lemma build_rows_order names m rs :
  build_rows names m = Ok rs ->
  Forall2 (fun name r => exists st, dict_get name m = Some st /\ r = make_row name st) names rs.
Proof.
  revert rs. induction names as [|n names IH]; intros rs H; simpl in H.
  - injection H as <-. constructor.
  - unfold dict_item in H. destruct (dict_get n m) as [st|] eqn:E; [|discriminate].
    simpl in H. destruct (build_rows names m) as [rs'|] eqn:E'; [|discriminate].
    simpl in H. injection H as <-. constructor; [exists st; auto | apply IH; reflexivity].
Qed.

(** X: the table has one data row per supplied file name, duplicates
    included, built in the order of the names; the sort keeps the rows
    whose Total space used values are equal in that order. *)
Theorem build_table_rows_stable (names : list string) (m : list (string * ScanStats))
    (t : table) (k : pyval) :
  build_table names m = Ok t ->
  exists rs, build_rows names m = Ok rs /\
    Forall2 (fun name r => exists st, dict_get name m = Some st /\ r = make_row name st) names rs /\
    Permutation (rows t) rs /\
    filter (fun r => pyval_eqb (row_key r) k) (rows t) = filter (fun r => pyval_eqb (row_key r) k) rs.
Proof.
  intros Hb. destruct (build_table_inv names m t Hb) as [hs [rs [Hh [Hr ->]]]].
  exists rs. split; [exact Hr|]. split; [apply build_rows_order, Hr|]. cbn [rows].
  split; [apply sort_desc_perm | apply sort_desc_filter].
Qed.

Definition tie_names : list string := ["a.txt"; "b.txt"; "c.txt"; "d.txt"].
Definition tie_map : list (string * ScanStats) :=
  [("a.txt", rec_tsu "a.txt" 5); ("b.txt", rec_tsu "b.txt" 9);
   ("c.txt", rec_tsu "c.txt" 5); ("d.txt", rec_tsu "d.txt" 5)].

Lemma build_table_rows_stable_witness :
  exists t, build_table tie_names tie_map = Ok t /\
    map (fun r => nth 0 r PNone) (rows t) = [PStr "b.txt"; PStr "a.txt"; PStr "c.txt"; PStr "d.txt"] /\
    exists rs, build_rows tie_names tie_map = Ok rs /\
      Forall2 (fun name r => exists st, dict_get name tie_map = Some st /\ r = make_row name st) tie_names rs /\
      Permutation (rows t) rs /\
      filter (fun r => pyval_eqb (row_key r) (PInt 5)) (rows t) =
      filter (fun r => pyval_eqb (row_key r) (PInt 5)) rs.
Proof.
  destruct (build_table tie_names tie_map) as [t|e] eqn:E; [|vm_compute in E; discriminate].
  exists t. split; [reflexivity|]. split.
  - vm_compute in E. injection E as <-. reflexivity.
  - exact (build_table_rows_stable tie_names tie_map t (PInt 5) E).
Defined.

(** X: a row without the Total space used scalar (key None, below every
    number in Python 2) is followed only by rows without it. *)
Theorem build_table_missing_total_last (names : list string) (m : list (string * ScanStats))
    (t : table) (pre : list (list pyval)) (r : list pyval) (post : list (list pyval)) :
  build_table names m = Ok t ->
  rows t = (pre ++ r :: post)%list ->
  row_key r = PNone ->
  Forall (fun r' => row_key r' = PNone) post.
Proof.
  intros Hb Ht Hr. destruct (build_table_inv names m t Hb) as [hs [rs [_ [_ ->]]]].
  cbn [rows] in Ht. pose proof (sort_desc_sorted row_key rs) as Hs.
  apply sorted_strongly in Hs. rewrite Ht in Hs.
  clear Ht. induction pre as [|x pre IH]; simpl in Hs.
  - apply StronglySorted_inv in Hs as [_ Hf]. eapply Forall_impl; [|exact Hf].
    intros r' H. unfold not_below in H. rewrite Hr in H.
    destruct (row_key r'); simpl in H; congruence.
  - apply StronglySorted_inv in Hs as [Hs _]. exact (IH Hs).
Qed.

Definition missing_map : list (string * ScanStats) :=
  [("a.txt", new_stats "a.txt"); ("b.txt", new_stats "b.txt"); ("c.txt", rec_tsu "c.txt" 100)].

Lemma build_table_missing_total_last_witness :
  exists t, build_table ["a.txt"; "b.txt"; "c.txt"] missing_map = Ok t /\
    rows t = ([make_row "c.txt" (rec_tsu "c.txt" 100)] ++
              make_row "a.txt" (new_stats "a.txt") :: [make_row "b.txt" (new_stats "b.txt")])%list /\
    row_key (make_row "a.txt" (new_stats "a.txt")) = PNone /\
    Forall (fun r' => row_key r' = PNone) [make_row "b.txt" (new_stats "b.txt")].
Proof.
  destruct (build_table ["a.txt"; "b.txt"; "c.txt"] missing_map) as [t|e] eqn:E;
    [|vm_compute in E; discriminate].
  assert (Hr : rows t = ([make_row "c.txt" (rec_tsu "c.txt" 100)] ++
              make_row "a.txt" (new_stats "a.txt") :: [make_row "b.txt" (new_stats "b.txt")])%list)
    by (vm_compute in E; injection E as <-; reflexivity).
  exists t. split; [reflexivity|]. split; [exact Hr|]. split; [reflexivity|].
  exact (build_table_missing_total_last _ _ t _ _ _ E Hr eq_refl).
Defined.

(** ** The Windows parser *)

(** take apart a successful computation of the error monad *)
Ltac res_cases H :=
  repeat match type of H with
  | bind ?m _ = Ok _ => let E := fresh "E" in destruct m eqn:E; cbn [bind] in H; [|discriminate H]
  | Ok _ = Ok _ => injection H as <-
  | (if ?b then _ else _) = Ok _ => let E := fresh "E" in destruct b eqn:E
  | match ?l with _ => _ end = Ok _ => let E := fresh "E" in destruct l eqn:E; try discriminate H
  end.

Lemma windows_line_nError lines n line self self' :
  windows_line lines n line self = Ok self' -> nError self <= nError self'.
Proof.
  intros H. unfold windows_line in H. destruct (startswith line "xcp scan").
  - res_cases H. simpl. lia.
  - set (m1 := if contains line " errors, " then _ else _) in H.
    assert (Hm : forall s1, m1 = Ok s1 -> nError self <= nError s1).
    { intros s1 Hs. subst m1. destruct (contains line " errors, "); [|injection Hs as <-; lia].
      destruct (next_such _ _) as [ef|]; cbn [bind] in Hs; [|discriminate].
      destruct (split_ws ef) as [|x [|y [|z r]]]; try discriminate.
      destruct (py_int x); cbn [bind] in Hs; [|discriminate]. injection Hs as <-. simpl; lia. }
    destruct m1 as [s1|]; cbn [bind] in H; [|discriminate]. specialize (Hm s1 eq_refl).
    cbv zeta in H. destruct (partition ":" line) as [[t' u] s'].
    res_cases H; simpl; lia.
Qed.

Lemma windows_loop_nError lines n rest self st :
  windows_loop lines n rest self = Ok st -> nError self <= nError st.
Proof.
  revert n self. induction rest as [|x rest IH]; intros n self H; simpl in H.
  - injection H as <-. lia.
  - destruct (windows_line lines n x self) as [s|] eqn:E; [|discriminate].
    apply windows_line_nError in E. apply IH in H. lia.
Qed.

Lemma windows_line_error_count lines n line self self' ef a b c :
  windows_line lines n line self = Ok self' ->
  startswith line "xcp scan" = false -> contains line " errors, " = true ->
  next_such (fun f => contains f "errors") (split_on "," line) = Ok ef ->
  split_ws ef = [a; b] -> py_int a = Ok c ->
  c <= nError self'.
Proof.
  intros H Hx He Hef Hw Hc. unfold windows_line in H. rewrite Hx, He, Hef in H. cbn [bind] in H.
  rewrite Hw, Hc in H. cbn [bind] in H.
  res_cases H; simpl; lia.
Qed.

(** X: the error count of a record read by fromWindows is never negative
    and is at least the count of every line of the form "..., n errors, ..."
    (it keeps the largest one, not the last). *)
Theorem fromWindows_nError_bounds (name : string) (lines : list string) (st : ScanStats) :
  fromWindows name lines = Ok st ->
  0 <= nError st /\
  forall L ef a b c, In L lines -> startswith L "xcp scan" = false -> contains L " errors, " = true ->
    next_such (fun f => contains f "errors") (split_on "," L) = Ok ef ->
    split_ws ef = [a; b] -> py_int a = Ok c -> c <= nError st.
Proof.
  intros H. split; [apply windows_loop_nError in H; exact H|].
  intros L ef a b c Hin Hx He Hef Hw Hc.
  apply in_split in Hin as [pre [post Hl]].
  unfold fromWindows in H. rewrite Hl in H at 2.
  rewrite windows_loop_app in H.
  destruct (windows_loop lines 0 pre (new_stats name)) as [s1|] eqn:E1; [|discriminate].
  cbn [bind] in H. rewrite windows_loop_cons in H.
  destruct (windows_line lines (0 + length pre) L s1) as [s2|] eqn:E2; [|discriminate].
  cbn [bind] in H. apply windows_loop_nError in H.
  pose proof (windows_line_error_count _ _ _ _ _ _ _ _ _ E2 Hx He Hef Hw Hc). lia.
Qed.

Definition err_lines : list string := ["copy, 3 errors, 1 warning"; "scan, 2 errors, 0 warnings"].

Lemma fromWindows_nError_bounds_witness :
  exists st, fromWindows "w.txt" err_lines = Ok st /\ nError st = 3 /\
    0 <= nError st /\
    forall L ef a b c, In L err_lines -> startswith L "xcp scan" = false -> contains L " errors, " = true ->
      next_such (fun f => contains f "errors") (split_on "," L) = Ok ef ->
      split_ws ef = [a; b] -> py_int a = Ok c -> c <= nError st.
Proof.
  destruct (fromWindows "w.txt" err_lines) as [st|e] eqn:E; [|vm_compute in E; discriminate].
  exists st. split; [reflexivity|]. split; [vm_compute in E; injection E as <-; reflexivity|].
  exact (fromWindows_nError_bounds "w.txt" err_lines st E).
Defined.

Lemma py_nth_past {A} (l : list A) (k : nat) : (length l <= k)%nat -> py_nth l (Z.of_nat k) = Err IndexError.
Proof.
  intros H. rewrite py_nth_nat. apply nth_error_None in H. rewrite H. reflexivity.
Qed.

(** X: a histogram title on the last or the second to last line of a
    Windows report leaves getfields without its two lines: the parse
    fails with IndexError. *)
Theorem fromWindows_title_at_end (name : string) (pre : list string) (T : string)
    (post : list string) (st : ScanStats) :
  windows_loop (pre ++ T :: post)%list 0 pre (new_stats name) = Ok st ->
  startswith T "xcp scan" = false ->
  contains T " errors, " = false ->
  in_list (windows_title T) Histograms = true ->
  (length post < 2)%nat ->
  fromWindows name (pre ++ T :: post)%list = Err IndexError.
Proof.
  intros Hpre Hx He Hh Hlen. unfold fromWindows.
  rewrite windows_loop_app, Hpre. cbn [bind]. rewrite windows_loop_cons.
  unfold windows_line at 1. rewrite Hx, He. cbn [bind]. cbv zeta. rewrite Hh.
  replace (Z.of_nat (0 + length pre) + 1) with (Z.of_nat (S (length pre))) by lia.
  replace (Z.of_nat (0 + length pre) + 2) with (Z.of_nat (S (S (length pre)))) by lia.
  destruct post as [|x [|y post]]; [| |simpl in Hlen; lia].
  - rewrite py_nth_past by (rewrite length_app; simpl; lia). reflexivity.
  - rewrite py_nth_nat, nth_error_app2 by lia.
    replace (S (length pre) - length pre)%nat with 1%nat by lia. cbn [nth_error bind].
    rewrite py_nth_past by (rewrite length_app; simpl; lia). reflexivity.
Qed.

Lemma fromWindows_title_at_end_witness :
  windows_loop ["Report"; "== Depth =="; "      Depth"] 0 ["Report"] (new_stats "w.txt") =
    Ok (new_stats "w.txt") /\
  fromWindows "w.txt" (["Report"] ++ "== Depth ==" :: ["      Depth"])%list = Err IndexError.
Proof.
  split; [vm_compute; reflexivity|].
  apply fromWindows_title_at_end with (st := new_stats "w.txt");
    [vm_compute; reflexivity | vm_compute; reflexivity | vm_compute; reflexivity |
     vm_compute; reflexivity | simpl; lia].
Defined.

(** X: a line starting with "xcp scan" that has no whitespace-separated
    word starting with a backslash (as the source path of an NFS scan)
    stops fromWindows with StopIteration. *)
Theorem fromWindows_scan_line_without_share (name : string) (pre : list string) (L : string)
    (post : list string) (st : ScanStats) :
  windows_loop (pre ++ L :: post)%list 0 pre (new_stats name) = Ok st ->
  startswith L "xcp scan" = true ->
  Forall (fun w => startswith w "\" = false) (split_ws L) ->
  fromWindows name (pre ++ L :: post)%list = Err StopIteration.
Proof.
  intros Hpre Hx Hw. unfold fromWindows.
  rewrite windows_loop_app, Hpre. cbn [bind]. rewrite windows_loop_cons.
  unfold windows_line at 1. rewrite Hx. unfold next_such.
  rewrite filter_none; [reflexivity|].
  intros z Hz. rewrite Forall_forall in Hw. exact (Hw z Hz).
Qed.

Lemma fromWindows_scan_line_without_share_witness :
  windows_loop ["xcp scan -stats server:/export"] 0 [] (new_stats "w.txt") = Ok (new_stats "w.txt") /\
  fromWindows "w.txt" ([] ++ "xcp scan -stats server:/export" :: [])%list = Err StopIteration.
Proof.
  split; [reflexivity|].
  apply fromWindows_scan_line_without_share with (st := new_stats "w.txt");
    [reflexivity | vm_compute; reflexivity | repeat constructor].
Defined.

(** ** Title lines of the Windows report *)

Fixpoint all_chars (p : ascii -> bool) (s : string) : bool :=
  match s with
  | EmptyString => true
  | String c s' => p c && all_chars p s'
  end.

Definition starts_not (p : ascii -> bool) (s : string) : bool :=
  match s with EmptyString => false | String c _ => negb (p c) end.

Lemma lstrip_by_app p a s : all_chars p a = true -> lstrip_by p (a ++ s) = lstrip_by p s.
Proof.
  induction a as [|c a IH]; simpl; [reflexivity|].
  intros H. apply andb_true_iff in H as [Hc Ha]. rewrite Hc. apply IH, Ha.
Qed.

Lemma lstrip_by_id p s : starts_not p s = true -> lstrip_by p s = s.
Proof.
  destruct s as [|c s]; simpl; [discriminate|].
  destruct (p c); [discriminate | reflexivity].
Qed.

Lemma starts_not_app p s t : starts_not p s = true -> starts_not p (s ++ t) = true.
Proof. destruct s; [discriminate | exact (fun H => H)]. Qed.

Lemma all_chars_app p a b : all_chars p (a ++ b) = all_chars p a && all_chars p b.
Proof.
  induction a as [|c a IH]; simpl; [reflexivity|]. rewrite IH, andb_assoc. reflexivity.
Qed.

Lemma all_chars_srev p s : all_chars p (srev s) = all_chars p s.
Proof.
  induction s as [|c s IH]; simpl; [reflexivity|].
  rewrite all_chars_app, IH. simpl. rewrite andb_true_r, andb_comm. reflexivity.
Qed.

(** the characters stripped around a title: whitespace, '=' and ' ' *)
Definition title_edge (c : ascii) : bool := is_space c || mem_char c "= ".

Lemma starts_not_weaken (p q : ascii -> bool) s :
  (forall c, p c = true -> q c = true) -> starts_not q s = true -> starts_not p s = true.
Proof.
  intros Hpq. destruct s as [|c s]; simpl; [discriminate|].
  destruct (p c) eqn:E; [rewrite (Hpq c E); discriminate | reflexivity].
Qed.

Lemma title_edge_space c : is_space c = true -> title_edge c = true.
Proof. unfold title_edge. intros ->. reflexivity. Qed.

Lemma title_edge_marks chars c :
  (forall d, mem_char d chars = true -> mem_char d "= " = true) ->
  mem_char c chars = true -> title_edge c = true.
Proof. unfold title_edge. intros H Hc. rewrite (H c Hc), orb_true_r. reflexivity. Qed.

Lemma mem_marks1 d : mem_char d "== " = true -> mem_char d "= " = true.
Proof. simpl. destruct (Ascii.eqb d " "), (Ascii.eqb d "="); simpl; auto. Qed.

Lemma mem_marks2 d : mem_char d " ==" = true -> mem_char d "= " = true.
Proof. simpl. destruct (Ascii.eqb d " "), (Ascii.eqb d "="); simpl; auto. Qed.

Lemma strip_around a x b :
  all_chars is_space a = true -> all_chars is_space b = true ->
  starts_not is_space x = true -> starts_not is_space (srev x) = true ->
  strip (a ++ x ++ b) = x.
Proof.
  intros Ha Hb Hx Hr. unfold strip, rstrip_by.
  rewrite lstrip_by_app by exact Ha. rewrite (lstrip_by_id is_space (x ++ b)) by (apply starts_not_app, Hx).
  rewrite srev_app, lstrip_by_app by (rewrite all_chars_srev; exact Hb).
  rewrite (lstrip_by_id is_space (srev x)) by exact Hr. apply srev_srev.
Qed.

Lemma lstrip_marks T : lstrip_set "== " ("== " ++ T) = lstrip_set "== " T.
Proof. reflexivity. Qed.

Lemma rstrip_marks T : rstrip_set " ==" (T ++ " ==") = rstrip_set " ==" T.
Proof. unfold rstrip_set, rstrip_by. rewrite srev_app. reflexivity. Qed.

Lemma windows_title_core a T b :
  starts_not title_edge T = true -> starts_not title_edge (srev T) = true ->
  all_chars is_space a = true -> all_chars is_space b = true ->
  windows_title (a ++ ("== " ++ T ++ " ==") ++ b) = T /\ windows_title (a ++ T ++ b) = T.
Proof.
  intros H1 H2 Ha Hb.
  assert (S1 : starts_not is_space T = true) by (eapply starts_not_weaken; [apply title_edge_space | exact H1]).
  assert (S2 : starts_not is_space (srev T) = true) by (eapply starts_not_weaken; [apply title_edge_space | exact H2]).
  assert (L1 : starts_not (fun c => mem_char c "== ") T = true)
    by (eapply starts_not_weaken; [intros c; apply title_edge_marks, mem_marks1 | exact H1]).
  assert (L2 : starts_not (fun c => mem_char c " ==") (srev T) = true)
    by (eapply starts_not_weaken; [intros c; apply title_edge_marks, mem_marks2 | exact H2]).
  assert (RT : rstrip_set " ==" T = T)
    by (unfold rstrip_set, rstrip_by; rewrite lstrip_by_id by exact L2; apply srev_srev).
  split.
  - unfold windows_title. rewrite strip_around; [| exact Ha | exact Hb | reflexivity |].
    + rewrite lstrip_marks. unfold lstrip_set at 1.
      rewrite (lstrip_by_id _ (T ++ " ==")) by (apply starts_not_app, L1).
      rewrite rstrip_marks. exact RT.
    + rewrite !srev_app. apply starts_not_app, starts_not_app. reflexivity.
  - unfold windows_title. rewrite strip_around by assumption.
    unfold lstrip_set. rewrite lstrip_by_id by exact L1. exact RT.
Qed.

(** X: a line of the Windows report is taken for the histogram title T
    whether or not it has the "== " and " ==" markers, whatever whitespace
    surrounds it: for every title of Histograms. *)
Theorem windows_title_recognised (T a b : string) :
  In T Histograms -> all_chars is_space a = true -> all_chars is_space b = true ->
  windows_title (a ++ ("== " ++ T ++ " ==") ++ b) = T /\ windows_title (a ++ T ++ b) = T /\
  in_list T Histograms = true.
Proof.
  intros HT Ha Hb.
  assert (H : starts_not title_edge T = true /\ starts_not title_edge (srev T) = true /\
              in_list T Histograms = true).
  { simpl in HT. repeat (destruct HT as [<- | HT]; [vm_compute; auto|]). contradiction. }
  destruct H as [H1 [H2 H3]].
  destruct (windows_title_core a T b H1 H2 Ha Hb). auto.
Qed.

Definition ws_tab : string := String (ascii_of_nat 9) EmptyString.

Lemma windows_title_recognised_witness :
  windows_title (ws_tab ++ ("== " ++ "Space used" ++ " ==") ++ nl) = "Space used" /\
  windows_title (ws_tab ++ "Space used" ++ nl) = "Space used" /\
  in_list "Space used" Histograms = true.
Proof.
  apply windows_title_recognised; [simpl; auto | reflexivity | reflexivity].
Defined.

(** ** CSV edge cases *)

(** X: a line whose first field is a histogram title, as the last line of
    a CSV file, has no value line after it: fromCSV fails with IndexError. *)
Theorem fromCSV_title_on_last_line (name : string) (pre : list string) (L : string)
    (st : ScanStats) (t : string) :
  hd EmptyString (split_on "," L) = t ->
  in_list t Histograms = true ->
  csv_loop (pre ++ [L])%list 0 pre (new_stats name, None) = Ok (st, None) ->
  fromCSV name (pre ++ [L])%list = Err IndexError.
Proof.
  intros Ht Hh Hpre. unfold fromCSV. rewrite csv_loop_app, Hpre. unfold bind at 2. cbv beta iota.
  pose proof (split_on_hd_prefix "," L) as HpL. rewrite Ht in HpL.
  destruct (Histograms_head t Hh) as [a [t' [-> Ha]]].
  rewrite Nat.add_0_l, !csv_loop_cons. unfold csv_line at 1. cbv beta iota zeta.
  rewrite (startswith_capital_s L a t' "can " HpL Ha).
  change ("summary," ++ dq) with (String "s" ("ummary," ++ dq)).
  rewrite (startswith_capital_s L a t' _ HpL Ha), andb_false_l.
  rewrite Ht, Hh.
  replace (Z.of_nat (length pre) + 1) with (Z.of_nat (S (length pre))) by lia.
  rewrite py_nth_past by (rewrite length_app; simpl; lia). reflexivity.
Qed.

Lemma fromCSV_title_on_last_line_witness :
  hd EmptyString (split_on "," "Depth,0,1,2") = "Depth" /\
  in_list "Depth" Histograms = true /\
  csv_loop (["Total count,5"] ++ ["Depth,0,1,2"])%list 0 ["Total count,5"] (new_stats "s.csv", None) =
    Ok (new_stats "s.csv", None) /\
  fromCSV "s.csv" (["Total count,5"] ++ ["Depth,0,1,2"])%list = Err IndexError.
Proof.
  assert (H1 : hd EmptyString (split_on "," "Depth,0,1,2") = "Depth") by reflexivity.
  assert (H2 : in_list "Depth" Histograms = true) by reflexivity.
  assert (H3 : csv_loop (["Total count,5"] ++ ["Depth,0,1,2"])%list 0 ["Total count,5"]
                 (new_stats "s.csv", None) = Ok (new_stats "s.csv", None)) by (vm_compute; reflexivity).
  split; [exact H1|]. split; [exact H2|]. split; [exact H3|].
  exact (fromCSV_title_on_last_line "s.csv" ["Total count,5"] "Depth,0,1,2" (new_stats "s.csv") "Depth" H1 H2 H3).
Defined.

(** X: a CSV line starting with "scan " that has no second
    whitespace-separated word gives no source: fromCSV fails with
    IndexError. *)
Theorem fromCSV_scan_line_without_path (name : string) (pre : list string) (L : string)
    (post : list string) (st : ScanStats) :
  csv_loop (pre ++ L :: post)%list 0 pre (new_stats name, None) = Ok (st, None) ->
  startswith L "scan " = true ->
  (length (split_ws L) < 2)%nat ->
  fromCSV name (pre ++ L :: post)%list = Err IndexError.
Proof.
  intros Hpre Hs Hlen. unfold fromCSV. rewrite csv_loop_app, Hpre. unfold bind at 2. cbv beta iota.
  rewrite csv_loop_cons. unfold csv_line at 1. cbv beta iota. rewrite Hs.
  change 1 with (Z.of_nat 1). rewrite py_nth_past by lia. reflexivity.
Qed.

Lemma fromCSV_scan_line_without_path_witness :
  csv_loop [String.append "scan " nl] 0 [] (new_stats "s.csv", None) = Ok (new_stats "s.csv", None) /\
  startswith (String.append "scan " nl) "scan " = true /\
  (length (split_ws (String.append "scan " nl)) < 2)%nat /\
  fromCSV "s.csv" ([] ++ (String.append "scan " nl) :: [])%list = Err IndexError.
Proof.
  assert (H1 : csv_loop ([] ++ (String.append "scan " nl) :: [])%list 0 [] (new_stats "s.csv", None) =
               Ok (new_stats "s.csv", None)) by reflexivity.
  assert (H2 : startswith (String.append "scan " nl) "scan " = true) by reflexivity.
  assert (H3 : (length (split_ws (String.append "scan " nl)) < 2)%nat) by (vm_compute; lia).
  split; [exact H1|]. split; [exact H2|]. split; [exact H3|].
  exact (fromCSV_scan_line_without_path "s.csv" [] _ [] (new_stats "s.csv") H1 H2 H3).
Defined.

(** ** The normalizer: blank input, commas, and the numbers the report writes *)

Lemma remove_char_none c s :
  all_chars (fun d => negb (Ascii.eqb c d)) s = true -> remove_char c s = s.
Proof.
  induction s as [|d s IH]; simpl; [reflexivity|].
  intros H. apply andb_true_iff in H as [Hd Hs]. apply negb_true_iff in Hd.
  rewrite Hd, IH by exact Hs. reflexivity.
Qed.

Lemma remove_char_idem c s : remove_char c (remove_char c s) = remove_char c s.
Proof.
  induction s as [|d s IH]; simpl; [reflexivity|].
  destruct (Ascii.eqb c d) eqn:E; [exact IH|]. simpl. rewrite E, IH. reflexivity.
Qed.

Lemma lstrip_by_all p s : all_chars p s = true -> lstrip_by p s = EmptyString.
Proof.
  intros H. rewrite <- (sapp_nil_r s) in H |- *. rewrite lstrip_by_app by (rewrite all_chars_app in H;
    apply andb_true_iff in H as [H _]; exact H). reflexivity.
Qed.

Lemma all_chars_impl (p q : ascii -> bool) s :
  (forall c, p c = true -> q c = true) -> all_chars p s = true -> all_chars q s = true.
Proof.
  intros Hpq. induction s as [|c s IH]; simpl; [reflexivity|].
  intros H. apply andb_true_iff in H as [Hc Hs]. rewrite (Hpq c Hc), (IH Hs). reflexivity.
Qed.

Lemma all_chars_remove_char p c s :
  all_chars (fun d => p d || Ascii.eqb d c) s = true -> all_chars p (remove_char c s) = true.
Proof.
  induction s as [|d s IH]; simpl; [reflexivity|].
  intros H. apply andb_true_iff in H as [Hd Hs].
  rewrite (Ascii.eqb_sym c d). destruct (Ascii.eqb d c) eqn:E; [apply IH, Hs|].
  rewrite orb_false_r in Hd. simpl. rewrite Hd, IH by exact Hs. reflexivity.
Qed.

(** X: a field made only of whitespace and commas (an empty cell of the
    report included) is read as 0, whatever its length. *)
Theorem convert_blank (val : string) :
  all_chars (fun c => is_space c || Ascii.eqb c ",") val = true ->
  convert val = Ok (strip val, 0).
Proof.
  intros H. unfold convert.
  assert (Hv : strip (remove_char "," val) = EmptyString).
  { unfold strip. rewrite lstrip_by_all by (apply all_chars_remove_char, H). reflexivity. }
  rewrite Hv. reflexivity.
Qed.

Lemma convert_blank_witness :
  all_chars (fun c => is_space c || Ascii.eqb c ",") (String.append "  ,  " nl) = true /\
  convert (String.append "  ,  " nl) = Ok (",", 0).
Proof.
  assert (H : all_chars (fun c => is_space c || Ascii.eqb c ",") (String.append "  ,  " nl) = true)
    by reflexivity.
  split; [exact H|]. rewrite (convert_blank _ H). reflexivity.
Defined.

Definition res_map {A B} (f : A -> B) (m : res A) : res B :=
  match m with Ok a => Ok (f a) | Err e => Err e end.

(** X: the commas of a field are ignored wherever they stand: the number
    read, or the exception raised, is the same once they are removed. *)
Theorem convert_ignores_commas (val : string) :
  res_map snd (convert (remove_char "," val)) = res_map snd (convert val).
Proof.
  unfold convert. rewrite remove_char_idem.
  destruct (String.eqb _ _); [reflexivity|].
  destruct (find_suffix sizes _) as [[s n]|].
  - destruct (py_float _) as [x|]; [|reflexivity]. cbn [bind].
    destruct (int_of_float _); reflexivity.
  - destruct (find_suffix counts _) as [[s n]|].
    + destruct (py_float _) as [x|]; [|reflexivity]. cbn [bind].
      destruct (int_of_float _); reflexivity.
    + destruct (py_int _); reflexivity.
Qed.

Definition is_digit (c : ascii) : bool :=
  match digit_val c with Some _ => true | None => false end.

Definition starts_is (p : ascii -> bool) (s : string) : bool :=
  match s with EmptyString => false | String c _ => p c end.

Lemma digit_cases c : is_digit c = true ->
  c = "0"%char \/ c = "1"%char \/ c = "2"%char \/ c = "3"%char \/ c = "4"%char \/
  c = "5"%char \/ c = "6"%char \/ c = "7"%char \/ c = "8"%char \/ c = "9"%char.
Proof.
  destruct c as [[] [] [] [] [] [] [] []]; vm_compute; intros H; try discriminate H; auto 10.
Qed.

Lemma digit_not_space c : is_digit c = true -> is_space c = false.
Proof. intros H. apply digit_cases in H. repeat destruct H as [-> | H]; try reflexivity. subst; reflexivity. Qed.

Lemma digit_not_comma c : is_digit c = true -> Ascii.eqb "," c = false.
Proof. intros H. apply digit_cases in H. repeat destruct H as [-> | H]; try reflexivity. subst; reflexivity. Qed.

Lemma starts_is_app p s t : starts_is p s = true -> starts_is p (s ++ t) = true.
Proof. destruct s; [discriminate | exact (fun H => H)]. Qed.

Lemma starts_is_srev p c s : all_chars p (String c s) = true -> starts_is p (srev (String c s)) = true.
Proof.
  revert c. induction s as [|d s IH]; intros c H.
  - simpl in *. rewrite andb_true_r in H. exact H.
  - simpl in H. apply andb_true_iff in H as [_ H].
    change (srev (String c (String d s))) with (srev (String d s) ++ String c EmptyString).
    apply starts_is_app, IH, H.
Qed.

Lemma endswith_digit_end v suf :
  starts_is is_digit (srev v) = true -> starts_is (fun c => negb (is_digit c)) (srev suf) = true ->
  endswith v suf = false.
Proof.
  unfold endswith. destruct (srev v) as [|d w]; [discriminate|].
  destruct (srev suf) as [|c x]; [discriminate|]. simpl. intros Hd Hc.
  destruct (ascii_dec c d) as [->|]; [rewrite Hd in Hc; discriminate | reflexivity].
Qed.

Lemma digits_acc_uint_pos (d : Decimal.uint) (acc : positive) :
  digits_acc (NilEmpty.string_of_uint d) (Zpos acc) = Some (Zpos (Pos.of_uint_acc d acc)).
Proof.
  revert acc. induction d as [|d IH|d IH|d IH|d IH|d IH|d IH|d IH|d IH|d IH|d IH]; intros acc;
    [reflexivity| ..]; cbn [NilEmpty.string_of_uint digits_acc Pos.of_uint_acc];
    match goal with |- match digit_val ?c with _ => _ end = _ =>
      change (digit_val c) with (Some (Z.of_nat (nat_of_ascii c) - 48)); cbv beta iota end;
    match goal with |- _ = Some (Zpos (Pos.of_uint_acc _ ?p)) => rewrite <- (IH p) end;
    f_equal; vm_compute (Z.of_nat _ - 48); lia.
Qed.

Lemma digits_acc_uint (d : Decimal.uint) :
  digits_acc (NilEmpty.string_of_uint d) 0 = Some (Z.of_uint d).
Proof.
  induction d as [|d IH|d IH|d IH|d IH|d IH|d IH|d IH|d IH|d IH|d IH]; [reflexivity|exact IH| ..];
    cbn [NilEmpty.string_of_uint digits_acc]; unfold Z.of_uint; cbn [Pos.of_uint Z.of_N];
    match goal with |- match digit_val ?c with _ => _ end = _ =>
      change (digit_val c) with (Some (Z.of_nat (nat_of_ascii c) - 48)); cbv beta iota end;
    rewrite <- digits_acc_uint_pos; f_equal; vm_compute; reflexivity.
Qed.

Lemma all_digits_uint (d : Decimal.uint) : all_chars is_digit (NilEmpty.string_of_uint d) = true.
Proof. induction d; simpl; try rewrite IHd; reflexivity. Qed.

Lemma uint_string_shape (d : Decimal.uint) :
  d <> Decimal.Nil ->
  exists c r, NilEmpty.string_of_uint d = String c r /\ is_digit c = true /\ all_chars is_digit r = true.
Proof.
  intros Hd. pose proof (all_digits_uint d) as H.
  destruct d; [contradiction| ..]; simpl in *; do 2 eexists;
    (split; [reflexivity | split; [reflexivity | exact H]]).
Qed.

Definition numeral (neg : bool) (d : ascii) (r : string) : string :=
  if neg then String "-" (String d r) else String d r.

Lemma numeral_facts neg d r :
  is_digit d = true -> all_chars is_digit r = true ->
  strip (numeral neg d r) = numeral neg d r /\ remove_char "," (numeral neg d r) = numeral neg d r /\
  starts_is is_digit (srev (numeral neg d r)) = true.
Proof.
  intros Hd Hr.
  assert (Hall : all_chars is_digit (String d r) = true) by (simpl; rewrite Hd, Hr; reflexivity).
  assert (Hend : starts_is is_digit (srev (numeral neg d r)) = true).
  { pose proof (starts_is_srev _ d r Hall) as H. unfold numeral; destruct neg; [|exact H].
    change (srev (String "-" (String d r))) with (srev (String d r) ++ String "-" EmptyString).
    apply starts_is_app, H. }
  assert (Hnc : all_chars (fun c => negb (Ascii.eqb "," c)) (String d r) = true)
    by (eapply all_chars_impl; [|exact Hall]; intros c Hc; rewrite digit_not_comma by exact Hc; reflexivity).
  split; [|split; [|exact Hend]].
  - pose proof (strip_around "" (numeral neg d r) "" eq_refl eq_refl) as H.
    rewrite sapp_nil_r in H. apply H.
    + unfold numeral; destruct neg; simpl; [reflexivity|]. rewrite digit_not_space by exact Hd. reflexivity.
    + destruct (srev (numeral neg d r)) as [|c w]; [discriminate|]. simpl in *.
      rewrite digit_not_space by exact Hend. reflexivity.
  - apply remove_char_none. unfold numeral; destruct neg; [|exact Hnc].
    change (negb (Ascii.eqb "," "-") && all_chars (fun c => negb (Ascii.eqb "," c)) (String d r) = true).
    rewrite Hnc. reflexivity.
Qed.

Lemma py_int_numeral neg d r n :
  is_digit d = true -> all_chars is_digit r = true -> digits_acc (String d r) 0 = Some n ->
  py_int (numeral neg d r) = Ok (if neg then - n else n).
Proof.
  intros Hd Hr Hn. destruct (numeral_facts neg d r Hd Hr) as [Hs _].
  unfold py_int. rewrite Hs. unfold numeral. destruct neg.
  - cbv beta iota zeta. rewrite lstrip_by_id by (simpl; rewrite digit_not_space by exact Hd; reflexivity).
    change (parse_digits (String d r)) with (digits_acc (String d r) 0). rewrite Hn. reflexivity.
  - pose proof Hd as Hd'. apply digit_cases in Hd'.
    repeat destruct Hd' as [-> | Hd']; try subst d; cbv beta iota zeta;
      (rewrite lstrip_by_id by reflexivity;
       change (parse_digits (String ?c r)) with (digits_acc (String c r) 0); rewrite Hn; reflexivity).
Qed.

Lemma convert_numeral neg d r n :
  is_digit d = true -> all_chars is_digit r = true -> digits_acc (String d r) 0 = Some n ->
  convert (numeral neg d r) = Ok (numeral neg d r, if neg then - n else n).
Proof.
  intros Hd Hr Hn. destruct (numeral_facts neg d r Hd Hr) as [Hs [Hrm Hend]].
  unfold convert. cbv zeta. rewrite Hrm, !Hs.
  replace (String.eqb (numeral neg d r) "") with false by (unfold numeral; destruct neg; reflexivity).
  cbn [find_suffix sizes counts].
  repeat (rewrite (endswith_digit_end (numeral neg d r) _ Hend) by reflexivity).
  rewrite (py_int_numeral neg d r n Hd Hr Hn). reflexivity.
Qed.

(** X: every integer the report writes (fmt of an int cell) is read back
    by the normalizer as the same integer: convert(str(n)) == (str(n), n). *)
Theorem convert_reads_fmt_int (z : Z) : convert (fmt (PInt z)) = Ok (fmt (PInt z), z).
Proof.
  destruct z as [|p|p]; [vm_compute; reflexivity| |].
  - destruct (uint_string_shape (Pos.to_uint p) (DecimalPos.Unsigned.to_uint_nonnil p)) as [d [r [E [Hd Hr]]]].
    assert (Hn : digits_acc (String d r) 0 = Some (Zpos p)).
    { rewrite <- E, digits_acc_uint. unfold Z.of_uint. rewrite DecimalPos.Unsigned.of_to. reflexivity. }
    change (fmt (PInt (Zpos p))) with (NilEmpty.string_of_uint (Pos.to_uint p)). rewrite E.
    exact (convert_numeral false d r _ Hd Hr Hn).
  - destruct (uint_string_shape (Pos.to_uint p) (DecimalPos.Unsigned.to_uint_nonnil p)) as [d [r [E [Hd Hr]]]].
    assert (Hn : digits_acc (String d r) 0 = Some (Zpos p)).
    { rewrite <- E, digits_acc_uint. unfold Z.of_uint. rewrite DecimalPos.Unsigned.of_to. reflexivity. }
    change (fmt (PInt (Zneg p))) with (String "-" (NilEmpty.string_of_uint (Pos.to_uint p))). rewrite E.
    exact (convert_numeral true d r _ Hd Hr Hn).
Qed.

(** ** getfields *)

Lemma getfields_values_shape line1 line2 names vs :
  getfields_values line1 line2 names = Ok vs ->
  length vs = length names /\ Forall (fun nm => contains line1 nm = true) names.
Proof.
  revert vs. induction names as [|nm names IH]; intros vs H; simpl in H.
  - injection H as <-. auto.
  - unfold index in H. destruct (find nm line1) eqn:Ef; [|discriminate]. cbn [bind] in H.
    destruct (convert _); [|discriminate]. cbn [bind] in H.
    destruct (getfields_values line1 line2 names) as [vs'|]; [|discriminate]. cbn [bind] in H.
    injection H as <-. destruct (IH vs' eq_refl) as [Hl Hf]. simpl. split; [lia|].
    constructor; [unfold contains; rewrite Ef; reflexivity | exact Hf].
Qed.

(** X: getfields gives one value per label, and every label it returns
    occurs in the label row; the labels are the whitespace-separated words
    of the label row unless it contains ">1 year", when they are the eight
    fixed Modified labels, all of which must then occur in it. *)
Theorem getfields_shape (line1 line2 : string) (names : list string) (values : list Z) :
  getfields line1 line2 = Ok (names, values) ->
  length values = length names /\
  Forall (fun nm => contains line1 nm = true) names /\
  names = (if contains line1 ">1 year" then modified_names else split_ws line1).
Proof.
  unfold getfields. intros H.
  destruct (getfields_values _ _ _) as [vs|] eqn:E; [|discriminate]. cbn [bind] in H.
  injection H as <- <-. destruct (getfields_values_shape _ _ _ _ E). auto.
Qed.

Lemma getfields_shape_witness :
  getfields ext_label_row ext_value_row = Ok ([".zip"; ".pdf"; "other"], [0; 16328; 22047]) /\
  length [0; 16328; 22047] = length [".zip"; ".pdf"; "other"] /\
  Forall (fun nm => contains ext_label_row nm = true) [".zip"; ".pdf"; "other"] /\
  [".zip"; ".pdf"; "other"] =
    (if contains ext_label_row ">1 year" then modified_names else split_ws ext_label_row).
Proof.
  assert (H : getfields ext_label_row ext_value_row = Ok ([".zip"; ".pdf"; "other"], [0; 16328; 22047]))
    by (vm_compute; reflexivity).
  split; [exact H|]. exact (getfields_shape _ _ _ _ H).
Defined.

(** ** The header rows *)

(** the cells a histogram of the reference record adds to each header row *)
Fixpoint ref_head0 (ref : ScanStats) (titles : list string) : list string :=
  match titles with
  | [] => []
  | title :: titles' =>
      if String.eqb title TopExt then ref_head0 ref titles'
      else match dict_get title (hists ref) with
           | Some h => (title :: repeat EmptyString (length (h_labels h) - 1)) ++ ref_head0 ref titles'
           | None => ref_head0 ref titles'
           end
  end.

Fixpoint ref_labels (ref : ScanStats) (titles : list string) : list string :=
  match titles with
  | [] => []
  | title :: titles' =>
      if String.eqb title TopExt then ref_labels ref titles'
      else match dict_get title (hists ref) with
           | Some h => h_labels h ++ ref_labels ref titles'
           | None => ref_labels ref titles'
           end
  end.

(** the included histograms of the reference record with no label *)
Fixpoint empty_label_hists (ref : ScanStats) (titles : list string) : nat :=
  match titles with
  | [] => 0
  | title :: titles' =>
      if String.eqb title TopExt then empty_label_hists ref titles'
      else match dict_get title (hists ref) with
           | Some h => (if Nat.eqb (length (h_labels h)) 0 then 1 else 0) + empty_label_hists ref titles'
           | None => empty_label_hists ref titles'
           end
  end.

Lemma header_loop_closed name0 rest m ref titles h0 h :
  dict_get name0 m = Some ref ->
  header_loop (name0 :: rest) m titles h0 h = Ok (h0 ++ ref_head0 ref titles, h ++ ref_labels ref titles)%list.
Proof.
  intros Href. revert h0 h. induction titles as [|title titles IH]; intros h0 h.
  - simpl. rewrite !app_nil_r. reflexivity.
  - rewrite header_loop_cons. cbn [ref_head0 ref_labels].
    destruct (String.eqb title TopExt); [apply IH|].
    rewrite py_nth_head. cbn [bind]. unfold dict_item. rewrite Href. cbn [bind].
    destruct (dict_get title (hists ref)) as [hh|]; [|apply IH].
    rewrite IH, <- !app_assoc. reflexivity.
Qed.

Lemma ref_head0_length ref titles :
  length (ref_head0 ref titles) = (length (ref_labels ref titles) + empty_label_hists ref titles)%nat.
Proof.
  induction titles as [|title titles IH]; simpl; [reflexivity|].
  destruct (String.eqb title TopExt); [exact IH|].
  destruct (dict_get title (hists ref)) as [h|]; [|exact IH].
  cbn [length]. rewrite !length_app, repeat_length, IH.
  destruct (length (h_labels h)) as [|k]; simpl; lia.
Qed.

(** X: the header row is the ten fixed cells ('', 'Errors', '', then the
    SingleValueOutputs keys) followed by the labels of the first file's
    histograms, in the order of Histograms, Top File Extensions left out;
    the title row is as long plus one cell for each such histogram that
    has no label at all. *)
Theorem build_table_header_shape (names : list string) (m : list (string * ScanStats)) (t : table) :
  build_table names m = Ok t ->
  exists name0 rest ref, names = name0 :: rest /\ dict_get name0 m = Some ref /\
    header t = (["" ; "Errors"; ""] ++ SingleValueOutputs ++ ref_labels ref Histograms)%list /\
    length (header0 t) = (length (header t) + empty_label_hists ref Histograms)%nat.
Proof.
  intros Hb. destruct (build_table_inv names m t Hb) as [hs [rs [Hh [Hr ->]]]].
  destruct names as [|name0 rest]; [discriminate Hh|].
  simpl in Hr. unfold dict_item in Hr. destruct (dict_get name0 m) as [ref|] eqn:Href; [|discriminate].
  exists name0, rest, ref. split; [reflexivity|]. split; [exact Href|].
  unfold build_header in Hh. rewrite (header_loop_closed name0 rest m ref _ _ _ Href) in Hh.
  assert (Hhs : hs = ((["" ; "" ; ""] ++ map (fun _ => EmptyString) SingleValueOutputs) ++ ref_head0 ref Histograms,
                      (["" ; "Errors"; ""] ++ SingleValueOutputs) ++ ref_labels ref Histograms)%list) by congruence.
  subst hs. cbv [header0 header fst snd]. split; [rewrite <- app_assoc; reflexivity|].
  rewrite !length_app, ref_head0_length, length_map. cbn [length]. lia.
Qed.

Definition nolabel_map : list (string * ScanStats) :=
  [("a.txt", set_hist "Depth" (mkHisto "Depth" [] []) (new_stats "a.txt"))].

Lemma build_table_header_shape_witness :
  exists t, build_table ["a.txt"] nolabel_map = Ok t /\
    length (header0 t) = 11%nat /\ length (header t) = 10%nat /\
    exists name0 rest ref, ["a.txt"] = name0 :: rest /\ dict_get name0 nolabel_map = Some ref /\
      header t = (["" ; "Errors"; ""] ++ SingleValueOutputs ++ ref_labels ref Histograms)%list /\
      length (header0 t) = (length (header t) + empty_label_hists ref Histograms)%nat.
Proof.
  destruct (build_table ["a.txt"] nolabel_map) as [t|e] eqn:E; [|vm_compute in E; discriminate].
  exists t. split; [reflexivity|].
  assert (Ht : t = mkTable (["" ; "" ; ""] ++ map (fun _ => EmptyString) SingleValueOutputs ++ ["Depth"])%list
                           (["" ; "Errors"; ""] ++ SingleValueOutputs)%list
                           [make_row "a.txt" (set_hist "Depth" (mkHisto "Depth" [] []) (new_stats "a.txt"))])
    by (vm_compute in E; injection E as <-; reflexivity).
  split; [rewrite Ht; reflexivity|]. split; [rewrite Ht; reflexivity|].
  exact (build_table_header_shape ["a.txt"] nolabel_map t E).
Defined.

(** ** The cells written for missing data *)

(** X: in the CSV written, a zero error count is the empty quoted string,
    a record without source path has the text "None" (quoted) in the share
    column, and so has every SingleValueOutputs column whose scalar the
    file did not have. *)
Theorem make_row_missing_cells (name : string) (st : ScanStats) :
  (nError st = 0 -> nth_error (map fmt (make_row name st)) 1 = Some (dq ++ dq)) /\
  (source st = None -> nth_error (map fmt (make_row name st)) 2 = Some (dq ++ "None" ++ dq)) /\
  (forall i k, nth_error SingleValueOutputs i = Some k -> dict_get k (single st) = None ->
     nth_error (map fmt (make_row name st)) (3 + i) = Some (dq ++ "None" ++ dq)).
Proof.
  rewrite !nth_error_map. unfold make_row. split; [|split].
  - intros H. simpl. rewrite H. reflexivity.
  - intros H. simpl. rewrite H. reflexivity.
  - intros i k Hk Hg. rewrite nth_error_map. cbn [app nth_error Nat.add].
    assert (Hi : (i < length SingleValueOutputs)%nat) by (apply nth_error_Some; congruence).
    rewrite nth_error_app1 by (rewrite length_map; exact Hi).
    rewrite nth_error_map, Hk. simpl. rewrite Hg. reflexivity.
Qed.

Lemma make_row_missing_cells_witness :
  nth_error (map fmt (make_row "a.txt" (new_stats "a.txt"))) 1 = Some (dq ++ dq) /\
  nth_error (map fmt (make_row "a.txt" (new_stats "a.txt"))) 2 = Some (dq ++ "None" ++ dq) /\
  nth_error (map fmt (make_row "a.txt" (new_stats "a.txt"))) (3 + 5) = Some (dq ++ "None" ++ dq).
Proof.
  destruct (make_row_missing_cells "a.txt" (new_stats "a.txt")) as [H1 [H2 H3]].
  split; [apply H1; reflexivity|]. split; [apply H2; reflexivity|].
  apply (H3 5%nat "Hard links"); reflexivity.
Defined.

(** ** The lines of stats.csv *)

(** a cell whose written form holds no comma: a str cell without ',' *)
Definition no_comma (s : string) : bool := all_chars (fun c => negb (Ascii.eqb c ",")) s.

Definition cell_ok (v : pyval) : bool :=
  match v with PStr s => no_comma s | _ => true end.

Lemma split_on_nonempty c s : exists f fs, split_on c s = f :: fs.
Proof.
  induction s as [|d s [f [fs IH]]]; simpl; [eauto|]. rewrite IH.
  destruct (Ascii.eqb d c); eauto.
Qed.

Lemma split_on_single s : no_comma s = true -> split_on "," s = [s].
Proof.
  unfold no_comma. induction s as [|d s IH]; simpl; [reflexivity|].
  intros H. apply andb_true_iff in H as [Hd Hs]. rewrite (IH Hs).
  apply negb_true_iff in Hd. rewrite Hd. reflexivity.
Qed.

Lemma split_on_sep_app a b : no_comma a = true -> split_on "," (a ++ String "," b) = a :: split_on "," b.
Proof.
  unfold no_comma. induction a as [|d a IH]; simpl; intros H.
  - destruct (split_on_nonempty "," b) as [f [fs E]]. rewrite E. reflexivity.
  - apply andb_true_iff in H as [Hd Hs]. rewrite (IH Hs).
    apply negb_true_iff in Hd. rewrite Hd. reflexivity.
Qed.

Lemma split_on_concat l : l <> [] -> Forall (fun s => no_comma s = true) l ->
  split_on "," (String.concat "," l) = l.
Proof.
  induction l as [|x l IH]; intros Hne Hl; [contradiction|].
  inversion Hl as [|? ? Hx Hl']; subst.
  destruct l as [|y l]; [apply split_on_single, Hx|].
  change (String.concat "," (x :: y :: l)) with (x ++ String "," (String.concat "," (y :: l))).
  rewrite (split_on_sep_app _ _ Hx), IH by (discriminate || exact Hl'). reflexivity.
Qed.

Lemma no_comma_app a b : no_comma (a ++ b) = no_comma a && no_comma b.
Proof. unfold no_comma. apply all_chars_app. Qed.

Lemma Z_to_str_no_comma z : no_comma (Z_to_str z) = true.
Proof.
  assert (Hu : forall d, no_comma (NilEmpty.string_of_uint d) = true).
  { intros d. eapply all_chars_impl; [|apply all_digits_uint].
    intros c Hc. rewrite Ascii.eqb_sym, digit_not_comma by exact Hc. reflexivity. }
  unfold Z_to_str, NilEmpty.string_of_int. destruct (Z.to_int z) as [d|d]; [apply Hu|].
  change (no_comma (String "-" (NilEmpty.string_of_uint d)) = true) with
    (no_comma (NilEmpty.string_of_uint d) = true). apply Hu.
Qed.

Lemma fmt_no_comma v : cell_ok v = true -> no_comma (fmt v) = true.
Proof.
  destruct v as [z|s|]; cbn [fmt cell_ok]; intros H.
  - apply Z_to_str_no_comma.
  - rewrite !no_comma_app, H. reflexivity.
  - reflexivity.
Qed.

(** X: a line written by mkline for a non-empty row is its body followed
    by a newline, and, when no str cell of the row contains a comma, the
    body split on ',' gives back the row's cells as fmt wrote them, one
    field per cell. *)
Theorem mkline_split_roundtrip (row : list pyval) :
  row <> [] -> Forall (fun v => cell_ok v = true) row ->
  exists body, mkline row = body ++ nl /\ split_on "," body = map fmt row.
Proof.
  intros Hne Hok. exists (String.concat "," (map fmt row)). split; [reflexivity|].
  apply split_on_concat.
  - destruct row; [contradiction | discriminate].
  - apply Forall_map. eapply Forall_impl; [|exact Hok]. intros v. apply fmt_no_comma.
Qed.

Lemma mkline_split_roundtrip_witness :
  split_on "," (String.concat "," (map fmt [PStr "a.txt"; PInt (-5); PNone])) =
    [dq ++ "a.txt" ++ dq; "-5"; dq ++ "None" ++ dq] /\
  exists body, mkline [PStr "a.txt"; PInt (-5); PNone] = body ++ nl /\
    split_on "," body = map fmt [PStr "a.txt"; PInt (-5); PNone].
Proof.
  split; [vm_compute; reflexivity|].
  apply mkline_split_roundtrip; [discriminate|].
  repeat constructor.
Defined.

(** ** The main program *)

(** X: with no file name on the command line the program raises
    IndexError when it builds the header (fileNames[0]) and writes nothing. *)
Theorem main_no_files (fs : string -> option (list string)) : main fs [] = Err IndexError.
Proof. reflexivity. Qed.

Lemma dict_get_set_same {V} k (v : V) d : dict_get k (dict_set k v d) = Some v.
Proof.
  induction d as [|[k' v'] d IH]; simpl; [rewrite String.eqb_refl; reflexivity|].
  destruct (String.eqb k k') eqn:E; simpl; [rewrite String.eqb_refl; reflexivity|].
  rewrite E. exact IH.
Qed.

Lemma dict_get_set_other {V} k k' (v : V) d : k' <> k -> dict_get k' (dict_set k v d) = dict_get k' d.
Proof.
  intros Hne. induction d as [|[k1 v1] d IH]; simpl.
  - apply String.eqb_neq in Hne. rewrite Hne. reflexivity.
  - destruct (String.eqb k k1) eqn:E; simpl.
    + apply String.eqb_eq in E. subst k1. apply String.eqb_neq in Hne. rewrite Hne. reflexivity.
    + destruct (String.eqb k' k1); [reflexivity | exact IH].
Qed.

Lemma parse_all_acc fs names acc m :
  parse_all fs names acc = Ok m ->
  forall n, (In n names -> exists lines st, fs n = Some lines /\ fromFile n lines = Ok st /\
                                          dict_get n m = Some st) /\
            (~ In n names -> dict_get n m = dict_get n acc).
Proof.
  revert acc. induction names as [|name names IH]; intros acc H n; simpl in H.
  - injection H as <-. split; [intros [] | reflexivity].
  - destruct (fs name) as [lines|] eqn:Efs; [|discriminate].
    destruct (fromFile name lines) as [st|] eqn:Est; simpl in H; [|discriminate].
    destruct (IH _ H n) as [Hin Hout]. split.
    + intros Hn. destruct (in_dec string_dec n names) as [Hn'|Hn']; [exact (Hin Hn')|].
      destruct Hn as [<- | Hn]; [|contradiction].
      exists lines, st. split; [exact Efs|]. split; [exact Est|].
      rewrite (Hout Hn'). apply dict_get_set_same.
    + intros Hn. rewrite Hout by (intros Hx; apply Hn; right; exact Hx).
      apply dict_get_set_other. intros ->. apply Hn. left. reflexivity.
Qed.

(** X: when the parse loop gets through all files, file2stats holds,
    for every name given, the record fromFile built from that file's
    lines (a name given twice is parsed twice, with the same result),
    and no other key. *)
Theorem parse_all_records (fs : string -> option (list string)) (names : list string)
    (m : list (string * ScanStats)) :
  parse_all fs names [] = Ok m ->
  forall n, (In n names -> exists lines st, fs n = Some lines /\ fromFile n lines = Ok st /\
                                          dict_get n m = Some st) /\
            (~ In n names -> dict_get n m = None).
Proof.
  intros H n. destruct (parse_all_acc fs names [] m H n) as [Hin Hout].
  split; [exact Hin | exact Hout].
Qed.

Lemma parse_all_records_witness :
  exists m, parse_all batch_fs ["good.csv"; "good.csv"] [] = Ok m /\
    (exists lines st, batch_fs "good.csv" = Some lines /\ fromFile "good.csv" lines = Ok st /\
                      dict_get "good.csv" m = Some st) /\
    dict_get "bad.csv" m = None.
Proof.
  destruct (parse_all batch_fs ["good.csv"; "good.csv"] []) as [m|e] eqn:E;
    [|vm_compute in E; discriminate].
  exists m. split; [reflexivity|].
  destruct (parse_all_records batch_fs ["good.csv"; "good.csv"] m E "good.csv") as [Hin _].
  destruct (parse_all_records batch_fs ["good.csv"; "good.csv"] m E "bad.csv") as [_ Hout].
  split; [apply Hin; left; reflexivity|].
  apply Hout. simpl. intros [H | [H | []]]; discriminate H.
Defined.

Lemma build_rows_total names m :
  (forall n, In n names -> dict_get n m <> None) -> exists rs, build_rows names m = Ok rs.
Proof.
  induction names as [|n names IH]; intros H; simpl; [eauto|].
  unfold dict_item. destruct (dict_get n m) as [st|] eqn:E; [|exfalso; apply (H n); [left; reflexivity | exact E]].
  destruct IH as [rs Hrs]; [intros x Hx; apply H; right; exact Hx|].
  rewrite Hrs. simpl. eauto.
Qed.

Lemma serialize_lines t :
  length (serialize t) = (2 + length (rows t))%nat /\
  Forall (fun l => endswith l nl = true) (serialize t).
Proof.
  unfold serialize. split; [cbn [length]; rewrite length_map; reflexivity|].
  assert (Hl : forall r, endswith (mkline r) nl = true)
    by (intros r; apply endswith_iff; eexists; reflexivity).
  constructor; [apply Hl|]. constructor; [apply Hl|].
  apply Forall_map, Forall_forall. intros r _. apply Hl.
Qed.

(** X: once every file has been parsed, the program writes stats.csv for
    any non-empty list of names: two header lines and then one line per
    name given (duplicates included), every line ended by a newline. *)
Theorem main_output_lines (fs : string -> option (list string)) (names : list string)
    (m : list (string * ScanStats)) :
  names <> [] -> parse_all fs names [] = Ok m ->
  exists out, main fs names = Ok out /\ length out = (2 + length names)%nat /\
    Forall (fun l => endswith l nl = true) out.
Proof.
  intros Hne Hp.
  assert (Hin : forall n, In n names -> dict_get n m <> None).
  { intros n Hn. destruct (parse_all_acc fs names [] m Hp n) as [H _].
    destruct (H Hn) as [lines [st [_ [_ ->]]]]. discriminate. }
  destruct names as [|name0 rest]; [contradiction|].
  destruct (dict_get name0 m) as [ref|] eqn:Href; [|exfalso; apply (Hin name0); [left; reflexivity | exact Href]].
  destruct (build_rows_total _ _ Hin) as [rs Hrs].
  assert (Hb : build_table (name0 :: rest) m =
               Ok (mkTable ((["" ; "" ; ""] ++ map (fun _ => EmptyString) SingleValueOutputs) ++ ref_head0 ref Histograms)
                           ((["" ; "Errors"; ""] ++ SingleValueOutputs) ++ ref_labels ref Histograms)
                           (sort_desc row_key rs))%list).
  { unfold build_table, build_header. rewrite (header_loop_closed name0 rest m ref _ _ _ Href), Hrs.
    reflexivity. }
  exists (serialize (mkTable ((["" ; "" ; ""] ++ map (fun _ => EmptyString) SingleValueOutputs) ++ ref_head0 ref Histograms)
                           ((["" ; "Errors"; ""] ++ SingleValueOutputs) ++ ref_labels ref Histograms)
                           (sort_desc row_key rs))%list).
  split; [unfold main, aggregate; rewrite Hp; cbn [bind]; rewrite Hb; reflexivity|].
  destruct (serialize_lines (mkTable ((["" ; "" ; ""] ++ map (fun _ => EmptyString) SingleValueOutputs) ++ ref_head0 ref Histograms)
                           ((["" ; "Errors"; ""] ++ SingleValueOutputs) ++ ref_labels ref Histograms)
                           (sort_desc row_key rs))%list) as [Hlen Hnl].
  split; [|exact Hnl]. rewrite Hlen. cbn [rows].
  rewrite (Permutation_length (sort_desc_perm row_key rs)).
  apply build_rows_order in Hrs. rewrite (Forall2_length Hrs). reflexivity.
Qed.

Lemma main_output_lines_witness :
  parse_all batch_fs ["good.csv"; "good.csv"] [] <> Err IOError /\
  exists out, main batch_fs ["good.csv"; "good.csv"] = Ok out /\ length out = 4%nat /\
    Forall (fun l => endswith l nl = true) out.
Proof.
  split; [vm_compute; discriminate|].
  destruct (parse_all batch_fs ["good.csv"; "good.csv"] []) as [m|e] eqn:E;
    [|vm_compute in E; discriminate].
  exact (main_output_lines batch_fs ["good.csv"; "good.csv"] m ltac:(discriminate) E).
Defined.

(** ** Histograms absent from the reference record *)

Lemma ref_head0_not_in ref titles title :
  dict_get title (hists ref) = None -> title <> EmptyString -> ~ In title (ref_head0 ref titles).
Proof.
  intros Hg He. induction titles as [|t' titles IH]; simpl; [tauto|].
  destruct (String.eqb t' TopExt); [exact IH|].
  destruct (dict_get t' (hists ref)) as [hh|] eqn:E; [|exact IH].
  intros [Hi | Hi]; [|apply in_app_or in Hi as [Hi | Hi]].
  - subst t'. rewrite Hg in E. discriminate.
  - apply repeat_spec in Hi. contradiction.
  - contradiction.
Qed.

Lemma row_hists_contains st titles title h :
  In title titles -> title <> TopExt -> dict_get title (hists st) = Some h ->
  exists a b, row_hists st titles = (a ++ h_values h ++ b)%list.
Proof.
  intros Hin Hne Hg. induction titles as [|t' titles IH]; [destruct Hin|].
  destruct Hin as [<- | Hin].
  - simpl. apply String.eqb_neq in Hne. rewrite Hne, Hg. exists [], (row_hists st titles). reflexivity.
  - destruct (IH Hin) as [a [b Hab]]. simpl.
    destruct (String.eqb t' TopExt); [exists a, b; exact Hab|].
    destruct (dict_get t' (hists st)) as [hh|]; [|exists a, b; exact Hab].
    exists (h_values hh ++ a)%list, b. rewrite Hab, app_assoc. reflexivity.
Qed.

Lemma Forall2_In_l {A B} (P : A -> B -> Prop) l1 l2 x :
  Forall2 P l1 l2 -> In x l1 -> exists y, In y l2 /\ P x y.
Proof.
  intros HF. induction HF as [|a b l1 l2 Hab _ IH]; [intros []|].
  intros [<- | Hx]; [exists b; split; [left; reflexivity | exact Hab]|].
  destruct (IH Hx) as [y [Hy Py]]. exists y. split; [right; exact Hy | exact Py].
Qed.

(** C4, a code bug: a histogram title absent from the first (reference)
    file's record gets no cell in the header rows (the title row does not
    name it, the label row has the reference labels only), but the row of
    a later file whose record has that histogram still carries its values,
    after the ten fixed cells: the row loop tests the file's own record. *)
Theorem build_table_absent_histogram_in_row (names : list string) (m : list (string * ScanStats))
    (t : table) (name0 : string) (rest : list string) (ref : ScanStats) (name : string)
    (st : ScanStats) (title : string) (h : Histo) :
  build_table names m = Ok t -> names = name0 :: rest -> dict_get name0 m = Some ref ->
  In title Histograms -> title <> TopExt -> dict_get title (hists ref) = None ->
  In name names -> dict_get name m = Some st -> dict_get title (hists st) = Some h ->
  ~ In title (header0 t) /\
  header t = (["" ; "Errors"; ""] ++ SingleValueOutputs ++ ref_labels ref Histograms)%list /\
  exists a b, In (make_row name st) (rows t) /\ make_row name st = (a ++ h_values h ++ b)%list /\
              (10 <= length a)%nat.
Proof.
  intros Hb -> Href Hin Hne Hnone Hn Hst Hh.
  assert (Htne : title <> EmptyString)
    by (intros ->; repeat (destruct Hin as [Hin | Hin]; [discriminate Hin|]); exact Hin).
  destruct (build_table_inv _ _ _ Hb) as [hs [rs [Hhs [Hrs ->]]]].
  unfold build_header in Hhs. rewrite (header_loop_closed name0 rest m ref _ _ _ Href) in Hhs.
  assert (Ehs : hs = ((["" ; "" ; ""] ++ map (fun _ => EmptyString) SingleValueOutputs) ++ ref_head0 ref Histograms,
                      (["" ; "Errors"; ""] ++ SingleValueOutputs) ++ ref_labels ref Histograms)%list) by congruence.
  subst hs. cbv [header0 header rows fst snd]. split; [|split; [rewrite <- app_assoc; reflexivity|]].
  - intros Hi. apply in_app_or in Hi as [Hi | Hi].
    + apply in_app_or in Hi as [Hi | Hi].
      * destruct Hi as [Hi | [Hi | [Hi | []]]]; apply Htne; symmetry; exact Hi.
      * apply in_map_iff in Hi as [x [Hx _]]. apply Htne. symmetry. exact Hx.
    + exact (ref_head0_not_in ref Histograms title Hnone Htne Hi).
  - apply build_rows_order in Hrs.
    destruct (Forall2_In_l _ _ _ _ Hrs Hn) as [r [Hr [st' [Hst' ->]]]].
    rewrite Hst in Hst'. injection Hst' as <-.
    destruct (row_hists_contains st Histograms title h Hin Hne Hh) as [a [b Hab]].
    exists (([PStr name;
              (if nError st =? 0 then PStr "" else PInt (nError st));
              match source st with Some s => PStr s | None => PNone end]
             ++ map (fun t => match dict_get t (single st) with Some n => PInt n | None => PNone end)
                    SingleValueOutputs) ++ a)%list, b.
    split; [exact (Permutation_in _ (Permutation_sym (sort_desc_perm row_key rs)) Hr)|].
    split; [unfold make_row; rewrite Hab, !app_assoc; reflexivity|].
    rewrite !length_app, length_map. cbn. lia.
Qed.

Lemma build_table_absent_histogram_in_row_witness :
  exists t, build_table ["a.txt"; "b.txt"] parity_map = Ok t /\
    length (header0 t) = 10%nat /\ length (header t) = 10%nat /\
    map (@length pyval) (rows t) = [10; 11]%nat /\
    ~ In "Created" (header0 t) /\
    header t = (["" ; "Errors"; ""] ++ SingleValueOutputs ++ ref_labels (new_stats "a.txt") Histograms)%list /\
    exists a b, In (make_row "b.txt" (set_hist "Created" (mkHisto "Created" ["x"] [PInt 1]) (new_stats "b.txt"))) (rows t) /\
      make_row "b.txt" (set_hist "Created" (mkHisto "Created" ["x"] [PInt 1]) (new_stats "b.txt")) =
        (a ++ [PInt 1] ++ b)%list /\ (10 <= length a)%nat.
Proof.
  destruct (build_table ["a.txt"; "b.txt"] parity_map) as [t|e] eqn:E; [|vm_compute in E; discriminate].
  exists t. split; [reflexivity|].
  pose proof E as E'. vm_compute in E'. injection E' as Ht.
  split; [rewrite <- Ht; reflexivity|]. split; [rewrite <- Ht; reflexivity|].
  split; [rewrite <- Ht; reflexivity|].
  assert (HinC : In "Created" Histograms) by (unfold Histograms; cbn [In]; do 8 right; left; reflexivity).
  assert (HneC : "Created" <> TopExt) by (unfold TopExt; discriminate).
  assert (HinB : In "b.txt" ["a.txt"; "b.txt"]) by (right; left; reflexivity).
  exact (build_table_absent_histogram_in_row ["a.txt"; "b.txt"] parity_map t "a.txt" ["b.txt"]
           (new_stats "a.txt") "b.txt" (set_hist "Created" (mkHisto "Created" ["x"] [PInt 1]) (new_stats "b.txt"))
           "Created" (mkHisto "Created" ["x"] [PInt 1])
           E eq_refl eq_refl HinC HneC eq_refl HinB eq_refl eq_refl).
Defined.
